(** * quick_view: a shallow embedding of [tools/quick_view.py]

    The viewer loads five municipal vector layers and orthophoto tiles,
    brings the vector layers to one working projection, samples the tree
    layer, and composes either a static figure or an interactive web map.

    The Python code is embedded as functions in a state-and-exception monad
    over a [World] that holds what the program can observe or change: the
    file system, the store of [GeoDataFrame] objects, the raster datasets
    opened so far, and the two output streams.  The behaviour of the
    libraries the program calls (geopandas, pandas, rasterio, numpy, folium)
    is given by small models next to the data they act on; the library
    computations with no content of their own here (coordinate
    transformation, seeded random choice, raster merging, the text of a
    timedelta array and of a set) are section variables. *)

From Stdlib Require Import QArith Qminmax Lqa.
From stdpp Require Import gmap strings list pretty sorting.

Open Scope string_scope.
Open Scope list_scope.
Open Scope nat_scope.

(** ** Python values *)

(** A Python float that may be NaN; finite values are exact rationals. *)
Inductive pyfloat := NaN | Fin (q : Q).

Definition fadd (a b : pyfloat) : pyfloat :=
  match a, b with
  | Fin x, Fin y => Fin (x + y)
  | _, _ => NaN
  end.

Definition fhalf (a : pyfloat) : pyfloat :=
  match a with
  | Fin x => Fin (x / 2)
  | NaN => NaN
  end.

Definition isnan (a : pyfloat) : bool :=
  match a with NaN => true | Fin _ => false end.

(** [numpy.nanmin] and [numpy.nanmax] on two values: NaN is ignored. *)
Definition nanmin (a b : pyfloat) : pyfloat :=
  match a, b with
  | NaN, _ => b
  | _, NaN => a
  | Fin x, Fin y => Fin (Qmin x y)
  end.

Definition nanmax (a b : pyfloat) : pyfloat :=
  match a, b with
  | NaN, _ => b
  | _, NaN => a
  | Fin x, Fin y => Fin (Qmax x y)
  end.

(** Exceptions raised by the program or by the libraries it calls. *)
Inductive Exn :=
| ValueError (msg : string)
| TypeError (msg : string)
| AttributeError (msg : string)
| DataSourceError (msg : string)
| RasterioIOError (msg : string)
| MergeError (msg : string)
| KeyError (msg : string)
| DanglingReference.

Inductive Result (A : Type) :=
| Ok (a : A)
| Raise (e : Exn).
Arguments Ok {A} a.
Arguments Raise {A} e.

(** A naive [datetime.datetime] / [pandas.Timestamp], to the microsecond. *)
Record DateTime := {
  year : nat; month : nat; day : nat;
  hour : nat; minute : nat; second : nat; microsecond : nat
}.

(** The values an attribute cell of dtype [object] can hold. *)
Inductive Value :=
| VNone
| VBool (b : bool)
| VInt (z : Z)
| VFloat (x : pyfloat)
| VStr (s : string)
| VDatetime (d : DateTime)
| VNaT
| VDate (y m d : nat)
| VTimedelta (us : Z).

(** ** Paths *)

(** A [pathlib.Path] is its list of components; [p / s] appends one. *)
Definition Path := list string.

Definition joinpath (p : Path) (s : string) : Path := (p ++ [s])%list.
Infix "</>" := joinpath (at level 40, left associativity).

Definition path_name (p : Path) : string := List.last p "".

Fixpoint path_str (p : Path) : string :=
  match p with
  | [] => ""
  | [s] => s
  | s :: rest => s +:+ "/" +:+ path_str rest
  end.

(** ** Coordinate reference systems and geometries *)

Record CRS := { crs_name : string; crs_epsg : option Z }.

Definition to_epsg (c : CRS) : option Z := crs_epsg c.

#[global] Instance CRS_eq_dec : EqDecision CRS.
Proof. solve_decision. Defined.

(** [f"{gdf.crs}"] *)
Definition crs_str (c : option CRS) : string :=
  match c with
  | Some c => crs_name c
  | None => "None"
  end.

Definition CRS_from_epsg (code : Z) : CRS :=
  {| crs_name := "EPSG:" +:+ pretty code; crs_epsg := Some code |}.

Definition TARGET_EPSG : Z := 25832.

Inductive Geometry :=
| GNull
| GPoint (x y : Q)
| GLineString (pts : list (Q * Q))
| GPolygon (ring : list (Q * Q)).

Definition coords (g : Geometry) : list (Q * Q) :=
  match g with
  | GNull => []
  | GPoint x y => [(x, y)]
  | GLineString pts => pts
  | GPolygon ring => ring
  end.

Definition map_coords (f : Q * Q → Q * Q) (g : Geometry) : Geometry :=
  match g with
  | GNull => GNull
  | GPoint x y => let '(x', y') := f (x, y) in GPoint x' y'
  | GLineString pts => GLineString (map f pts)
  | GPolygon ring => GPolygon (map f ring)
  end.

(** ** GeoDataFrame *)

(** A column is its dtype together with its cells.  In a [datetime64] or
    [timedelta64] column [None] is [NaT]. *)
Inductive Column :=
| GeomCol (g : list Geometry)
| Datetime64Col (v : list (option DateTime))
| Timedelta64Col (v : list (option Z))
| Int64Col (v : list Z)
| Float64Col (v : list pyfloat)
| ObjectCol (v : list Value).

Definition col_len (c : Column) : nat :=
  match c with
  | GeomCol g => length g
  | Datetime64Col v => length v
  | Timedelta64Col v => length v
  | Int64Col v => length v
  | Float64Col v => length v
  | ObjectCol v => length v
  end.

Record GeoDataFrame := {
  crs : option CRS;
  geometry_name : string;
  columns : list (string * Column)
}.

(** [gdf[col]]: the first column carrying that label. *)
Fixpoint assoc (col : string) (cs : list (string * Column)) : option Column :=
  match cs with
  | [] => None
  | (k, c) :: rest => if decide (k = col) then Some c else assoc col rest
  end.

Definition getitem (gdf : GeoDataFrame) (col : string) : option Column :=
  assoc col (columns gdf).

(** [gdf[col] = c] on an existing label replaces that column in place; on a
    new label it appends the column. *)
Fixpoint assoc_set (col : string) (c : Column) (cs : list (string * Column))
  : list (string * Column) :=
  match cs with
  | [] => [(col, c)]
  | (k, c0) :: rest =>
      if decide (k = col) then (k, c) :: rest else (k, c0) :: assoc_set col c rest
  end.

Definition setitem (gdf : GeoDataFrame) (col : string) (c : Column) : GeoDataFrame :=
  {| crs := crs gdf; geometry_name := geometry_name gdf;
     columns := assoc_set col c (columns gdf) |}.

(** [gdf.geometry]: the active geometry column. *)
Definition geometry (gdf : GeoDataFrame) : list Geometry :=
  match getitem gdf (geometry_name gdf) with
  | Some (GeomCol g) => g
  | _ => []
  end.

(** [len(gdf)]: the number of rows. *)
Definition len (gdf : GeoDataFrame) : nat :=
  match columns gdf with
  | [] => 0
  | (_, c) :: _ => col_len c
  end.

(** [gdf.empty]: some axis has length zero. *)
Definition empty (gdf : GeoDataFrame) : bool :=
  match columns gdf with
  | [] => true
  | _ => Nat.eqb (len gdf) 0
  end.

(** [gpd.GeoDataFrame(geometry=[])] *)
Definition empty_frame : GeoDataFrame :=
  {| crs := None; geometry_name := "geometry"; columns := [("geometry", GeomCol [])] |}.

(** [gdf.total_bounds]: (minx, miny, maxx, maxy) over every coordinate of the
    active geometry column, NaN where there is none. *)
Definition all_coords (gdf : GeoDataFrame) : list (Q * Q) :=
  concat (map coords (geometry gdf)).

Definition bounds (pts : list (Q * Q)) : pyfloat * pyfloat * pyfloat * pyfloat :=
  let xs := map (λ p, Fin (fst p)) pts in
  let ys := map (λ p, Fin (snd p)) pts in
  (foldr nanmin NaN xs, foldr nanmin NaN ys, foldr nanmax NaN xs, foldr nanmax NaN ys).

Definition total_bounds (gdf : GeoDataFrame) : pyfloat * pyfloat * pyfloat * pyfloat :=
  bounds (all_coords gdf).

(** Row selection by position, used by [sample] and [iloc]. *)
Definition pick {A} (idx : list nat) (l : list A) : list A :=
  omap (λ i, l !! i) idx.

Definition col_rows (sel : ∀ A, list A → list A) (c : Column) : Column :=
  match c with
  | GeomCol g => GeomCol (sel _ g)
  | Datetime64Col v => Datetime64Col (sel _ v)
  | Timedelta64Col v => Timedelta64Col (sel _ v)
  | Int64Col v => Int64Col (sel _ v)
  | Float64Col v => Float64Col (sel _ v)
  | ObjectCol v => ObjectCol (sel _ v)
  end.

Definition rows (sel : ∀ A, list A → list A) (gdf : GeoDataFrame) : GeoDataFrame :=
  {| crs := crs gdf; geometry_name := geometry_name gdf;
     columns := map (λ kc, (fst kc, col_rows sel (snd kc))) (columns gdf) |}.

(** [gdf.iloc[:n]] *)
Definition iloc_head (n : nat) (gdf : GeoDataFrame) : GeoDataFrame :=
  rows (λ A, take n) gdf.

(** ** String forms of date and time values *)

Definition zeros (n : nat) : string := String.concat "" (replicate n "0").

(** [f"{n:0kd}"]: decimal, left-padded with zeros to width [k]. *)
Definition pad (k n : nat) : string :=
  let s := pretty n in zeros (k - String.length s) +:+ s.

Definition date_str (d : DateTime) : string :=
  pad 4 (year d) +:+ "-" +:+ pad 2 (month d) +:+ "-" +:+ pad 2 (day d).

Definition time_str (d : DateTime) : string :=
  pad 2 (hour d) +:+ ":" +:+ pad 2 (minute d) +:+ ":" +:+ pad 2 (second d).

(** [d.isoformat()]: ISO-8601 with the [T] separator; the fraction is printed
    only when the microsecond is not zero. *)
Definition isoformat (d : DateTime) : string :=
  date_str d +:+ "T" +:+ time_str d +:+
  (if Nat.eqb (microsecond d) 0 then "" else "." +:+ pad 6 (microsecond d)).

(** [Series.astype(str)] on a [datetime64] column.  pandas renders the whole
    array in one format: the date alone when every value is at midnight,
    otherwise date, a space, and the time, with as many fraction digits as
    the finest value needs.  [NaT] is rendered as ["NaT"]. *)
Definition midnight (d : DateTime) : bool :=
  Nat.eqb (hour d) 0 && Nat.eqb (minute d) 0 && Nat.eqb (second d) 0
  && Nat.eqb (microsecond d) 0.

Definition each_dt (p : DateTime → bool) (v : list (option DateTime)) : bool :=
  forallb (λ o, match o with Some d => p d | None => true end) v.

Definition fraction (v : list (option DateTime)) (d : DateTime) : string :=
  if each_dt (λ d, Nat.eqb (microsecond d) 0) v then ""
  else if each_dt (λ d, Nat.eqb (microsecond d mod 1000) 0) v
       then "." +:+ pad 3 (microsecond d / 1000)
       else "." +:+ pad 6 (microsecond d).

Definition datetime64_astype_str (v : list (option DateTime)) : list string :=
  map (λ o, match o with
            | None => "NaT"
            | Some d =>
                if each_dt midnight v then date_str d
                else date_str d +:+ " " +:+ time_str d +:+ fraction v d
            end) v.

(** The lambda of [_sanitize_attributes]:
    [v.isoformat() if isinstance(v, (datetime, pd.Timestamp)) else v].
    [pd.NaT] is an instance of [datetime]; its [isoformat()] is ["NaT"].  A
    [datetime.date] is not an instance of [datetime]. *)
Definition isoformat_if_datetime (v : Value) : Value :=
  match v with
  | VDatetime d => VStr (isoformat d)
  | VNaT => VStr "NaT"
  | _ => v
  end.

(** [Series.apply(f)]: cell by cell; only an [object] column can hold a value
    the lambda changes, every other dtype keeps its cells. *)
Definition apply_isoformat (c : Column) : Column :=
  match c with
  | ObjectCol v => ObjectCol (map isoformat_if_datetime v)
  | _ => c
  end.

Definition is_datetime64_any_dtype (c : Column) : bool :=
  match c with Datetime64Col _ => true | _ => false end.

Definition is_timedelta64_dtype (c : Column) : bool :=
  match c with Timedelta64Col _ => true | _ => false end.

(** ** Rasters, figures and web maps *)

Definition Affine : Type := Q * Q * Q * Q * Q * Q.
Definition Array : Type := list (list (list Z)).

Record Raster := { r_crs : option CRS; r_transform : Affine; r_bands : Array }.

(** A dataset handle returned by [rasterio.open]. *)
Record Dataset := { ds_name : Path; ds_raster : Raster; ds_closed : bool }.

Inductive StyleVal := SNum (q : Q) | SStr (s : string).
Definition Style := list (string * StyleVal).

(** [d.get(key, default)] *)
Fixpoint dict_get (d : Style) (key : string) (default : StyleVal) : StyleVal :=
  match d with
  | [] => default
  | (k, v) :: rest => if decide (k = key) then v else dict_get rest key default
  end.

(** A matplotlib figure with one axes: what was drawn on it, in order. *)
Inductive Artist :=
| Image (arr : Array) (transform : Affine) (cmap : string) (alpha : Q)
| Layer (gdf : GeoDataFrame) (style : Style).

Record Figure := {
  figsize : Z * Z;
  artists : list Artist;
  aspect : string;
  title : string;
  xlabel : string;
  ylabel : string
}.

Inductive Child :=
| CircleMarker (location : Q * Q) (radius color : StyleVal) (fill : bool)
               (fill_opacity opacity : StyleVal)
| GeoJson (data : GeoDataFrame) (name : string) (style_function : option Style)
| LayerControl.

Record FoliumMap := {
  location : Q * Q;
  zoom_start : Z;
  tiles : option string;
  control_scale : bool;
  children : list Child
}.

(** ** The world *)

Inductive File :=
| Shapefile (gdf : GeoDataFrame)
| GeoTiff (r : Raster)
| Png (f : Figure) (dpi : Z)
| Html (m : FoliumMap).

Record World := {
  fs : gmap Path File;
  objs : list GeoDataFrame;
  handles : list Dataset;
  stderr : list string;
  stdout : list string;
  shown : list Figure
}.

Definition set_fs (f : gmap Path File → gmap Path File) (w : World) : World :=
  {| fs := f (fs w); objs := objs w; handles := handles w;
     stderr := stderr w; stdout := stdout w; shown := shown w |}.
Definition set_objs (f : list GeoDataFrame → list GeoDataFrame) (w : World) : World :=
  {| fs := fs w; objs := f (objs w); handles := handles w;
     stderr := stderr w; stdout := stdout w; shown := shown w |}.
Definition set_handles (f : list Dataset → list Dataset) (w : World) : World :=
  {| fs := fs w; objs := objs w; handles := f (handles w);
     stderr := stderr w; stdout := stdout w; shown := shown w |}.
Definition set_stderr (f : list string → list string) (w : World) : World :=
  {| fs := fs w; objs := objs w; handles := handles w;
     stderr := f (stderr w); stdout := stdout w; shown := shown w |}.
Definition set_stdout (f : list string → list string) (w : World) : World :=
  {| fs := fs w; objs := objs w; handles := handles w;
     stderr := stderr w; stdout := f (stdout w); shown := shown w |}.
Definition set_shown (f : list Figure → list Figure) (w : World) : World :=
  {| fs := fs w; objs := objs w; handles := handles w;
     stderr := stderr w; stdout := stdout w; shown := f (shown w) |}.

(** ** The monad of the program: state passing with exceptions.  A raised
    exception keeps the world reached so far. *)
Definition M (A : Type) : Type := World → Result A * World.

Global Instance M_ret : MRet M := λ A a w, (Ok a, w).
Global Instance M_bind : MBind M := λ A B k c w,
  match c w with
  | (Ok a, w') => k a w'
  | (Raise e, w') => (Raise e, w')
  end.

Definition raise {A} (e : Exn) : M A := λ w, (Raise e, w).

Definition lift {A} (r : Result A) : M A := λ w, (r, w).

(** [print(msg, file=sys.stderr)] and [print(msg)] *)
Definition eprint (msg : string) : M unit :=
  λ w, (Ok (), set_stderr (λ l, (l ++ [msg])%list) w).
Definition print (msg : string) : M unit :=
  λ w, (Ok (), set_stdout (λ l, (l ++ [msg])%list) w).

(** [for x in l: body(x)] *)
Fixpoint for_each {A} (l : list A) (body : A → M unit) : M unit :=
  match l with
  | [] => mret ()
  | x :: rest => body x ;; for_each rest body
  end.

(** References to [GeoDataFrame] objects: positions in the store. *)
Definition ref := nat.

Definition new (gdf : GeoDataFrame) : M ref :=
  λ w, (Ok (length (objs w)), set_objs (λ l, (l ++ [gdf])%list) w).

Definition deref (r : ref) : M GeoDataFrame :=
  λ w, match objs w !! r with
       | Some gdf => (Ok gdf, w)
       | None => (Raise DanglingReference, w)
       end.

(** In-place change of the object behind [r]. *)
Definition mutate (r : ref) (f : GeoDataFrame → GeoDataFrame) : M unit :=
  λ w, match objs w !! r with
       | Some gdf => (Ok (), set_objs (λ l, <[r := f gdf]> l) w)
       | None => (Raise DanglingReference, w)
       end.

(** [path.exists()] *)
Definition exists_ (p : Path) : M bool :=
  λ w, (Ok (bool_decide (is_Some (fs w !! p))), w).

(** [gpd.read_file(path)]: a new frame holding every feature of the file. *)
Definition read_file (p : Path) : M ref :=
  λ w, match fs w !! p with
       | Some (Shapefile gdf) => new gdf w
       | _ => (Raise (DataSourceError (path_str p)), w)
       end.

(** [gpd.read_file(path, rows=n)]: a new frame holding the first [n]
    features of the file. *)
Definition read_file_rows (p : Path) (n : nat) : M ref :=
  λ w, match fs w !! p with
       | Some (Shapefile gdf) => new (iloc_head n gdf) w
       | _ => (Raise (DataSourceError (path_str p)), w)
       end.

(** ** The program *)

Section QuickView.

(** pyproj: the coordinates of a point of a source CRS in the CRS of an EPSG
    code. *)
Variable transform : CRS → Z → Q * Q → Q * Q.

(** numpy: [RandomState(seed).choice(n, size=k, replace=False)], the row
    positions a seeded sample draws. *)
Variable choice : Z → nat → nat → list nat.

(** [rasterio.merge.merge] on the rasters of the given datasets. *)
Variable merge : list Raster → Result (Array * Affine).

(** pandas: the string rendering of a [timedelta64] array. *)
Variable timedelta64_astype_str : list (option Z) → list string.

(** Python: the text an f-string prints for a non-empty [set] that holds
    these values; the order in which CPython lists them is left open. *)
Variable repr_set : list (option CRS) → string.

(** *** geopandas and pandas methods *)

(** [gdf.to_crs(epsg=code)]: a new frame whose active geometry column is
    transformed and whose CRS is the requested one. *)
Definition to_crs_frame (code : Z) (gdf : GeoDataFrame) : Result GeoDataFrame :=
  match crs gdf with
  | None => Raise (ValueError "Cannot transform naive geometries.  Please set a crs on the object first.")
  | Some c =>
      Ok {| crs := Some (CRS_from_epsg code);
            geometry_name := geometry_name gdf;
            columns := assoc_set (geometry_name gdf)
                         (GeomCol (map (map_coords (transform c code)) (geometry gdf)))
                         (columns gdf) |}
  end.

Definition to_crs (gdf : ref) (code : Z) : M ref :=
  g ← deref gdf; g' ← lift (to_crs_frame code g); new g'.

(** [gdf.sample(n, random_state=seed)]: [n] rows drawn without replacement. *)
Definition sample_frame (n seed : Z) (gdf : GeoDataFrame) : Result GeoDataFrame :=
  if bool_decide (n < 0)%Z then
    Raise (ValueError "A negative number of rows requested. Please provide `n` >= 0.")
  else if bool_decide (Z.of_nat (len gdf) < n)%Z then
    Raise (ValueError "Cannot take a larger sample than population when 'replace=False'")
  else Ok (rows (λ A, pick (choice seed (len gdf) (Z.to_nat n))) gdf).

Definition sample (gdf : ref) (n seed : Z) : M ref :=
  g ← deref gdf; g' ← lift (sample_frame n seed g); new g'.

(** [gdf.iloc[:n]] *)
Definition iloc (gdf : ref) (n : nat) : M ref :=
  g ← deref gdf; new (iloc_head n g).

(** [gdf.copy()] *)
Definition copy (gdf : ref) : M ref :=
  g ← deref gdf; new g.

(** [gdf[labels]]: a new frame with the listed columns, in that order. *)
Fixpoint select_columns (labels : list string) (cs : list (string * Column))
  : Result (list (string * Column)) :=
  match labels with
  | [] => Ok []
  | k :: rest =>
      match assoc k cs, select_columns rest cs with
      | Some c, Ok out => Ok ((k, c) :: out)
      | None, _ => Raise (KeyError k)
      | _, Raise e => Raise e
      end
  end.

Definition select (gdf : ref) (labels : list string) : M ref :=
  g ← deref gdf;
  cs ← lift (select_columns labels (columns g));
  new {| crs := crs g; geometry_name := geometry_name g; columns := cs |}.

(** [gdf[col].astype(str)] on a date/time column. *)
Definition astype_str (c : Column) : Column :=
  match c with
  | Datetime64Col v => ObjectCol (map VStr (datetime64_astype_str v))
  | Timedelta64Col v => ObjectCol (map VStr (timedelta64_astype_str v))
  | _ => c
  end.

(** *** rasterio *)

Definition rasterio_open (tif : Path) : M nat :=
  λ w, match fs w !! tif with
       | Some (GeoTiff r) =>
           (Ok (length (handles w)),
            set_handles (λ l, (l ++ [{| ds_name := tif; ds_raster := r; ds_closed := false |}])%list) w)
       | _ => (Raise (RasterioIOError (path_str tif)), w)
       end.

Definition dataset (src : nat) : M Dataset :=
  λ w, match handles w !! src with
       | Some d => (Ok d, w)
       | None => (Raise DanglingReference, w)
       end.

(** [src.close()] *)
Definition close (src : nat) : M unit :=
  λ w, match handles w !! src with
       | Some d =>
           (Ok (), set_handles (λ l, <[src := {| ds_name := ds_name d; ds_raster := ds_raster d;
                                                   ds_closed := true |}]> l) w)
       | None => (Raise DanglingReference, w)
       end.

Fixpoint datasets (sources : list nat) : M (list Dataset) :=
  match sources with
  | [] => mret []
  | src :: rest => d ← dataset src; ds ← datasets rest; mret (d :: ds)
  end.

(** [merge(sources)]: reads every dataset, so each must still be open. *)
Definition rasterio_merge (sources : list nat) : M (Array * Affine) :=
  ds ← datasets sources;
  if forallb (λ d, negb (ds_closed d)) ds then lift (merge (map ds_raster ds))
  else raise (RasterioIOError "Dataset is closed").

(** *** [_load_vector] *)

Definition _load_vector (path : Path) : M ref :=
  gdf ← read_file path;
  g ← deref gdf;
  (if empty g then eprint ("[warn] empty layer: " +:+ path_str path) else mret ());;
  match crs g with
  | None => eprint ("[warn] missing CRS on layer: " +:+ path_name path);; mret gdf
  | Some c =>
      if decide (to_epsg c ≠ Some TARGET_EPSG) then to_crs gdf TARGET_EPSG
      else mret gdf
  end.

(** *** [_plot_vectors] *)

Definition draw (a : Artist) (ax : Figure) : Figure :=
  {| figsize := figsize ax; artists := (artists ax ++ [a])%list; aspect := aspect ax;
     title := title ax; xlabel := xlabel ax; ylabel := ylabel ax |}.

Fixpoint _plot_vectors (ax : Figure) (layers : list (ref * Style)) : M Figure :=
  match layers with
  | [] => mret ax
  | (gdf, style) :: rest =>
      g ← deref gdf;
      if empty g then _plot_vectors ax rest
      else _plot_vectors (draw (Layer g style) ax) rest
  end.

(** *** [_orthophoto_mosaic] *)

(** The loop of lines 61-67, with [sources] as its accumulator. *)
Fixpoint open_sources (tifs : list Path) (sources : list nat) : M (list nat) :=
  match tifs with
  | [] => mret sources
  | tif :: rest =>
      src ← rasterio_open tif;
      d ← dataset src;
      match r_crs (ds_raster d) with
      | None => eprint ("[warn] orthophoto missing CRS (used as-is): " +:+ path_name tif)
      | Some c =>
          if decide (to_epsg c ≠ Some TARGET_EPSG) then
            eprint ("[warn] orthophoto not EPSG:" +:+ pretty TARGET_EPSG +:+ ", got "
                    +:+ crs_name c +:+ " (" +:+ path_name tif +:+ ")")
          else mret ()
      end;;
      open_sources rest (sources ++ [src])%list
  end.

Definition _orthophoto_mosaic (tifs : list Path) : M (option (Array * Affine)) :=
  sources ← open_sources tifs [];
  match sources with
  | [] => mret None
  | _ =>
      mt ← rasterio_merge sources;
      for_each sources close;;
      mret (Some mt)
  end.

(** *** [plot_layers] *)

Definition tree_file (data_dir : Path) : Path :=
  data_dir </> "Baumkataster_OPENDATA" </> "SHN_Baumkataster_open_UTM32N_EPSG25832.shp".
Definition parcel_file (data_dir : Path) : Path :=
  data_dir </> "ALKIS-oE_080910_Heilbronn_shp" </> "flurstueck.shp".
Definition building_file (data_dir : Path) : Path :=
  data_dir </> "ALKIS-oE_080910_Heilbronn_shp" </> "gebaeudeBauwerke.shp".
Definition street_file (data_dir : Path) : Path :=
  data_dir </> "Straßenkataster_Stand2015" </> "6300002_STK_Strassenknoten_Beschriftung.shp".
Definition green_file (data_dir : Path) : Path :=
  data_dir </> "Grünflächenkataster" </> "700001000_GRF_Pflegegebiet_F.shp".

(** [sorted(data_dir.glob("dop20rgbi_*/*.tif"))]: the files two levels below
    [data_dir] whose directory starts with [dop20rgbi_] and whose name ends
    in [.tif], in the order of their components. *)
Definition ends_with (suffix s : string) : bool :=
  String.prefix (String.rev suffix) (String.rev s).

Definition is_tile (data_dir p : Path) : bool :=
  match drop (length data_dir) p with
  | [d; f] =>
      bool_decide (take (length data_dir) p = data_dir)
      && String.prefix "dop20rgbi_" d && ends_with ".tif" f
  | _ => false
  end.

Fixpoint path_leb (p q : Path) : bool :=
  match p, q with
  | [], _ => true
  | _ :: _, [] => false
  | a :: p', b :: q' =>
      match String.compare a b with
      | Lt => true
      | Eq => path_leb p' q'
      | Gt => false
      end
  end.

Definition glob_tiles (data_dir : Path) : M (list Path) :=
  λ w, (Ok (merge_sort (λ p q, Is_true (path_leb p q))
              (List.filter (is_tile data_dir) (elements (dom (fs w))))), w).

(** *** [summarize_crs] *)

(** The dict of lines 77-83, in insertion order. *)
Definition layer_files (data_dir : Path) : list (string * Path) :=
  [("trees", tree_file data_dir); ("parcels", parcel_file data_dir);
   ("buildings", building_file data_dir); ("streets", street_file data_dir);
   ("greens", green_file data_dir)].

(** The body of the loop of lines 84-89. *)
Definition summarize_layer (entry : string * Path) : M unit :=
  let '(name, path) := entry in
  present ← exists_ path;
  if present : bool then
    gdf ← read_file_rows path 1;
    g ← deref gdf;
    print (name +:+ ": CRS=" +:+ crs_str (crs g) +:+ " | " +:+ path_str path)
  else print (name +:+ ": missing (" +:+ path_str path +:+ ")").

(** [tif_crs.add(c)]; the set is kept as the list of its distinct values. *)
Definition set_add (c : option CRS) (s : list (option CRS)) : list (option CRS) :=
  if decide (c ∈ s) then s else s ++ [c].

(** The loop of lines 93-95; [with] closes the dataset when its body is
    left. *)
Fixpoint sample_tile_crs (tifs : list Path) (tif_crs : list (option CRS))
  : M (list (option CRS)) :=
  match tifs with
  | [] => mret tif_crs
  | tif :: rest =>
      src ← rasterio_open tif;
      d ← dataset src;
      let tif_crs := set_add (r_crs (ds_raster d)) tif_crs in
      close src;;
      sample_tile_crs rest tif_crs
  end.

Definition summarize_crs (data_dir : Path) : M unit :=
  for_each (layer_files data_dir) summarize_layer;;
  tifs ← glob_tiles data_dir;
  tif_crs ← sample_tile_crs (take 5 tifs) [];
  print ("orthophoto tiles: " +:+ pretty (length tifs) +:+ " found; sample CRS="
         +:+ match tif_crs with
             | [] => "n/a"
             | _ => repr_set tif_crs
             end).

(** [if max_trees and len(trees) > max_trees:
       trees = trees.sample(max_trees, random_state=42)]
    (lines 109-110 and 195-196). *)
Definition sample_trees (max_trees : Z) (trees : ref) : M ref :=
  g ← deref trees;
  if bool_decide (max_trees ≠ 0%Z) && bool_decide (max_trees < Z.of_nat (len g))%Z
  then sample trees max_trees 42
  else mret trees.

(** Lines 107-113: the tree layer. *)
Definition plot_layers_trees (data_dir : Path) (max_trees : Z) : M (list (ref * Style)) :=
  present ← exists_ (tree_file data_dir);
  if present : bool then
    trees ← _load_vector (tree_file data_dir);
    trees ← sample_trees max_trees trees;
    mret [(trees, [("markersize", SNum 1); ("color", SStr "forestgreen")])]
  else
    eprint ("[warn] missing tree layer: " +:+ path_str (tree_file data_dir));;
    mret [].

(** One of the three blocks of lines 115-123. *)
Definition plot_layers_head (file : Path) (style : Style) (layers : list (ref * Style))
  : M (list (ref * Style)) :=
  present ← exists_ file;
  if present : bool then
    layer ← _load_vector file;
    head ← iloc layer 5000;
    mret (layers ++ [(head, style)])%list
  else mret layers.

Definition subplots (size : Z * Z) : Figure :=
  {| figsize := size; artists := []; aspect := "auto"; title := ""; xlabel := ""; ylabel := "" |}.

Definition decorate (asp ttl xl yl : string) (ax : Figure) : Figure :=
  {| figsize := figsize ax; artists := artists ax; aspect := asp;
     title := ttl; xlabel := xl; ylabel := yl |}.

(** [plt.savefig(out_path, dpi=200, bbox_inches="tight")] *)
Definition savefig (out_path : Path) (ax : Figure) (dpi : Z) : M unit :=
  λ w, (Ok (), set_fs (λ f, <[out_path := Png ax dpi]> f) w).

(** [plt.show()] *)
Definition show (ax : Figure) : M unit :=
  λ w, (Ok (), set_shown (λ l, (l ++ [ax])%list) w).

Definition plot_layers (data_dir : Path) (max_trees : Z) (include_raster : bool)
    (out_path : option Path) : M unit :=
  layers ← plot_layers_trees data_dir max_trees;
  layers ← plot_layers_head (parcel_file data_dir)
             [("facecolor", SStr "none"); ("edgecolor", SStr "#999999"); ("linewidth", SNum 0.2)]
             layers;
  layers ← plot_layers_head (building_file data_dir)
             [("facecolor", SStr "#aa0000"); ("edgecolor", SStr "none"); ("alpha", SNum 0.3)]
             layers;
  layers ← plot_layers_head (street_file data_dir)
             [("color", SStr "#0055aa"); ("linewidth", SNum 0.3)]
             layers;
  let ax := subplots (10, 10)%Z in
  ax ← (if include_raster then
          raster_files ← glob_tiles data_dir;
          mosaic ← _orthophoto_mosaic raster_files;
          match mosaic with
          | Some (arr, transform) => mret (draw (Image arr transform "gray" 0.6) ax)
          | None => eprint "[warn] no orthophoto tiles found";; mret ax
          end
        else mret ax);
  ax ← _plot_vectors ax layers;
  let ax := decorate "equal" "Heilbronn tree-planting context (EPSG:25832)"
              "Easting (m)" "Northing (m)" ax in
  match out_path with
  | Some out_path =>
      savefig out_path ax 200;;
      print ("saved plot to " +:+ path_str out_path)
  | None => show ax
  end.

(** *** [_to_wgs84] *)

Definition _to_wgs84 (gdf : ref) : M ref :=
  g ← deref gdf;
  match crs g with
  | None => raise (ValueError "Cannot convert to WGS84; missing CRS")
  | Some c =>
      if decide (to_epsg c ≠ Some 4326%Z) then to_crs gdf 4326
      else mret gdf
  end.

(** *** [_sanitize_attributes] *)

(** The body of the loop of lines 164-170 for one column label. *)
Definition sanitize_column (gdf : ref) (col : string) : M unit :=
  g ← deref gdf;
  if decide (col = geometry_name g) then mret ()
  else
    match getitem g col with
    | None => raise (KeyError col)
    | Some c =>
        if is_datetime64_any_dtype c || is_timedelta64_dtype c
        then mutate gdf (λ g, setitem g col (astype_str c))
        else mutate gdf (λ g, setitem g col (apply_isoformat c))
    end.

Definition _sanitize_attributes (gdf : ref) (keep_cols : option (list string)) : M ref :=
  gdf ← copy gdf;
  gdf ← match keep_cols with
        | Some keep_cols =>
            g ← deref gdf;
            let keep_cols :=
              filter (λ c, c ∈ (columns g).*1 ∧ c ≠ geometry_name g) keep_cols in
            select gdf (geometry_name g :: keep_cols)
        | None => mret gdf
        end;
  g ← deref gdf;
  for_each (columns g).*1 (sanitize_column gdf);;
  mret gdf.

(** *** [export_folium_map] *)

(** [_load_vector(file) if file.exists() else gpd.GeoDataFrame(geometry=[])] *)
Definition load_or_empty (file : Path) : M ref :=
  present ← exists_ file;
  if present : bool then _load_vector file else new empty_frame.

(** Lines 189-196: the five layers, the tree layer sampled. *)
Definition export_load (data_dir : Path) (max_trees : Z) : M (ref * ref * ref * ref * ref) :=
  trees ← load_or_empty (tree_file data_dir);
  parcels ← load_or_empty (parcel_file data_dir);
  buildings ← load_or_empty (building_file data_dir);
  streets ← load_or_empty (street_file data_dir);
  greens ← load_or_empty (green_file data_dir);
  trees ← sample_trees max_trees trees;
  mret (trees, parcels, buildings, streets, greens).

(** The loop of lines 200-203: the first candidate that is not empty. *)
Fixpoint first_non_empty (candidates : list ref) : M (option ref) :=
  match candidates with
  | [] => mret None
  | candidate :: rest =>
      g ← deref candidate;
      if negb (empty g) then mret (Some candidate) else first_non_empty rest
  end.

(** Lines 199-208: the centre of the map, as [lat, lon]. *)
Definition map_center (trees parcels buildings streets greens : ref) : M (pyfloat * pyfloat) :=
  ref_layer ← first_non_empty [trees; parcels; streets; greens; buildings];
  match ref_layer with
  | None => raise (ValueError "No vector data available to center map")
  | Some ref_layer =>
      g ← deref ref_layer;
      if empty g then raise (ValueError "No vector data available to center map")
      else
        ref_wgs84 ← _to_wgs84 ref_layer;
        g84 ← deref ref_wgs84;
        let '(minx, miny, maxx, maxy) := total_bounds g84 in
        mret (fhalf (fadd miny maxy), fhalf (fadd minx maxx))
  end.

(** [folium.Map(location=center, zoom_start=14, tiles=..., control_scale=True)];
    folium refuses a location that holds a NaN. *)
Definition folium_Map (center : pyfloat * pyfloat) (tile_source : option string) : M FoliumMap :=
  match center with
  | (Fin lat, Fin lon) =>
      mret {| location := (lat, lon); zoom_start := 14; tiles := tile_source;
              control_scale := true; children := [] |}
  | _ => raise (ValueError "Location values cannot contain NaNs.")
  end.

Definition add_to (c : Child) (m : FoliumMap) : FoliumMap :=
  {| location := location m; zoom_start := zoom_start m; tiles := tiles m;
     control_scale := control_scale m; children := (children m ++ [c])%list |}.

(** [gdf.to_json()]: [json.dumps] refuses date and time objects. *)
Definition json_value (v : Value) : bool :=
  match v with
  | VDatetime _ | VNaT | VDate _ _ _ | VTimedelta _ => false
  | _ => true
  end.

Definition json_column (c : Column) : bool :=
  match c with
  | Datetime64Col v => forallb (λ o, bool_decide (o = None)) v
  | Timedelta64Col v => forallb (λ o, bool_decide (o = None)) v
  | ObjectCol v => forallb json_value v
  | _ => true
  end.

Definition to_json (g : GeoDataFrame) : Result GeoDataFrame :=
  if forallb (λ kc, json_column (snd kc)) (columns g) then Ok g
  else Raise (TypeError "Object of type Timestamp is not JSON serializable").

(** [row.geometry.y] and [row.geometry.x] of one row: the cell of the column
    labelled [geometry] must be a point. *)
Definition point_yx (g : Geometry) : Result (Q * Q) :=
  match g with
  | GPoint x y => Ok (y, x)
  | GNull => Raise (AttributeError "'NoneType' object has no attribute 'y'")
  | _ => Raise (AttributeError "y")
  end.

(** The loop of lines 218-226: one circle marker per row. *)
Fixpoint add_markers (point_style : Style) (cells : list Geometry) (m : FoliumMap)
  : Result FoliumMap :=
  match cells with
  | [] => Ok m
  | cell :: rest =>
      match point_yx cell with
      | Raise e => Raise e
      | Ok yx =>
          add_markers point_style rest
            (add_to (CircleMarker yx
                       (dict_get point_style "radius" (SNum 2))
                       (dict_get point_style "color" (SStr "green"))
                       true
                       (dict_get point_style "fill_opacity" (SNum 0.8))
                       (dict_get point_style "opacity" (SNum 0.8))) m)
      end
  end.

(** Lines 213-228; the map [m] the closure captures is passed and returned. *)
Definition add_geojson (m : FoliumMap) (gdf : ref) (name : string)
    (style_function : option Style) (point_style : option Style) : M FoliumMap :=
  g ← deref gdf;
  if empty g then mret m
  else
    g84 ← _to_wgs84 gdf;
    gdf_wgs84 ← _sanitize_attributes g84 None;
    gw ← deref gdf_wgs84;
    match point_style with
    | Some ((_ :: _) as point_style) =>
        match getitem gw "geometry" with
        | Some (GeomCol cells) => lift (add_markers point_style cells m)
        | _ => raise (AttributeError "geometry")
        end
    | _ =>
        data ← lift (to_json gw);
        mret (add_to (GeoJson data name style_function) m)
    end.

(** [m.save(out_path)] *)
Definition save (out_path : Path) (m : FoliumMap) : M unit :=
  λ w, (Ok (), set_fs (λ f, <[out_path := Html m]> f) w).

Definition export_folium_map (data_dir : Path) (max_trees : Z) (tiles : option string)
    (out_path : Path) : M unit :=
  '(trees, parcels, buildings, streets, greens) ← export_load data_dir max_trees;
  center ← map_center trees parcels buildings streets greens;
  let tile_source :=
    match tiles with
    | Some "" => None
    | _ => tiles
    end in
  m ← folium_Map center tile_source;
  m ← add_geojson m parcels "Parcels"
        (Some [("color", SStr "#999"); ("weight", SNum 0.5); ("fillOpacity", SNum 0)]) None;
  m ← add_geojson m buildings "Buildings"
        (Some [("color", SStr "#aa0000"); ("weight", SNum 0.5); ("fillOpacity", SNum 0.3)]) None;
  m ← add_geojson m greens "Greens"
        (Some [("color", SStr "#52a352"); ("weight", SNum 0.6); ("fillOpacity", SNum 0.15)]) None;
  m ← add_geojson m streets "Streets"
        (Some [("color", SStr "#0055aa"); ("weight", SNum 0.8); ("fillOpacity", SNum 0)]) None;
  m ← add_geojson m trees "Trees" None
        (Some [("radius", SNum 2); ("color", SStr "darkgreen"); ("fill_opacity", SNum 0.9)]);
  let m := add_to LayerControl m in
  save out_path m;;
  print ("saved folium map to " +:+ path_str out_path).

(** ** Reasoning about runs *)

(** The frame a run returns, when it returns one. *)
Definition returned (out : Result ref * World) : option GeoDataFrame :=
  match out with
  | (Ok r, w) => objs w !! r
  | (Raise _, _) => None
  end.

(** The frame [_load_vector] hands to its caller for a file holding [gdf]. *)
Definition working_frame (gdf : GeoDataFrame) : GeoDataFrame :=
  match crs gdf with
  | Some c =>
      if decide (to_epsg c ≠ Some TARGET_EPSG) then
        match to_crs_frame TARGET_EPSG gdf with
        | Ok g => g
        | Raise _ => gdf
        end
      else gdf
  | None => gdf
  end.

Lemma bind_run {A B} (c : M A) (k : A → M B) (w : World) :
  (c ≫= k) w = match c w with
               | (Ok a, w') => k a w'
               | (Raise e, w') => (Raise e, w')
               end.
Proof. reflexivity. Qed.

Lemma bind_ok {A B} (c : M A) (k : A → M B) (w w' : World) (a : A) :
  c w = (Ok a, w') → (c ≫= k) w = k a w'.
Proof. intros H. rewrite bind_run, H. reflexivity. Qed.

Lemma bind_raise {A B} (c : M A) (k : A → M B) (w w' : World) (e : Exn) :
  c w = (Raise e, w') → (c ≫= k) w = (Raise e, w').
Proof. intros H. rewrite bind_run, H. reflexivity. Qed.

Lemma bind_assoc {A B C} (c : M A) (f : A → M B) (k : B → M C) (w : World) :
  ((c ≫= f) ≫= k) w = (c ≫= λ a, f a ≫= k) w.
Proof. rewrite !bind_run. destruct (c w) as [[a|e] w']; [rewrite bind_run|]; reflexivity. Qed.

Lemma bind_ret {A B} (a : A) (k : A → M B) (w : World) : (mret a ≫= k) w = k a w.
Proof. reflexivity. Qed.

Lemma bind_lift_ok {A B} (a : A) (k : A → M B) (w : World) : (lift (Ok a) ≫= k) w = k a w.
Proof. reflexivity. Qed.

Lemma bind_new {B} (g : GeoDataFrame) (k : ref → M B) (w : World) :
  (new g ≫= k) w = k (length (objs w)) (set_objs (λ l, l ++ [g]) w).
Proof. reflexivity. Qed.

Lemma bind_deref {B} (r : ref) (g : GeoDataFrame) (k : GeoDataFrame → M B) (w : World) :
  objs w !! r = Some g → (deref r ≫= k) w = k g w.
Proof. intros H. rewrite bind_run. unfold deref. rewrite H. reflexivity. Qed.

Lemma deref_ok (r : ref) (g : GeoDataFrame) (w : World) :
  objs w !! r = Some g → deref r w = (Ok g, w).
Proof. intros H. unfold deref. rewrite H. reflexivity. Qed.

Lemma lookup_new (l : list GeoDataFrame) (g : GeoDataFrame) :
  (l ++ [g])%list !! length l = Some g.
Proof. rewrite lookup_app_r by lia. rewrite Nat.sub_diag. reflexivity. Qed.

Lemma to_crs_frame_crs (code : Z) (g g' : GeoDataFrame) :
  to_crs_frame code g = Ok g' → crs g' = Some (CRS_from_epsg code).
Proof.
  unfold to_crs_frame. destruct (crs g); intros H; inversion H. reflexivity.
Qed.

(** ** The Vector Layer Loader *)

Ltac proj_world :=
  cbn [fs objs handles stderr stdout shown
       set_fs set_objs set_handles set_stderr set_stdout set_shown].

Ltac mstep :=
  rewrite ?bind_run;
  unfold deref, new, eprint, print, lift, raise, mret, M_ret;
  proj_world; rewrite ?lookup_new.

(** The run of [_load_vector] on an existing shapefile, in closed form. *)
Definition loaded (path : Path) (gdf : GeoDataFrame) (w : World) : Result ref * World :=
  let w1 := set_objs (λ l, (l ++ [gdf])%list) w in
  let w2 := if empty gdf
            then set_stderr (λ l, (l ++ ["[warn] empty layer: " +:+ path_str path])%list) w1
            else w1 in
  match crs gdf with
  | None =>
      (Ok (length (objs w)),
       set_stderr (λ l, (l ++ ["[warn] missing CRS on layer: " +:+ path_name path])%list) w2)
  | Some c =>
      if decide (to_epsg c ≠ Some TARGET_EPSG)
      then (Ok (S (length (objs w))), set_objs (λ l, (l ++ [working_frame gdf])%list) w2)
      else (Ok (length (objs w)), w2)
  end.

Lemma load_vector_run (path : Path) (gdf : GeoDataFrame) (w : World) :
  fs w !! path = Some (Shapefile gdf) → _load_vector path w = loaded path gdf w.
Proof.
  intros Hfile. unfold _load_vector, loaded, working_frame, read_file, to_crs, to_crs_frame.
  mstep. rewrite Hfile. mstep.
  destruct (empty gdf), (crs gdf) as [c|] eqn:Hcrs; mstep; try reflexivity.
  all: destruct (decide (to_epsg c ≠ Some TARGET_EPSG)); mstep; try reflexivity.
  all: rewrite Hcrs; mstep; rewrite length_app; cbn [length]; repeat f_equal; lia.
Qed.

Lemma working_frame_crs (gdf : GeoDataFrame) (c : CRS) :
  crs gdf = Some c → to_epsg c ≠ Some TARGET_EPSG →
  crs (working_frame gdf) = Some (CRS_from_epsg TARGET_EPSG).
Proof.
  intros Hc Hne. unfold working_frame, to_crs_frame. rewrite Hc.
  destruct (decide (to_epsg c ≠ Some TARGET_EPSG)); [reflexivity | contradiction].
Qed.

Lemma working_frame_id (gdf : GeoDataFrame) :
  (∀ c, crs gdf = Some c → to_epsg c = Some TARGET_EPSG) → working_frame gdf = gdf.
Proof.
  intros H. unfold working_frame. destruct (crs gdf) as [c|]; [|reflexivity].
  destruct (decide (to_epsg c ≠ Some TARGET_EPSG)) as [Hne|]; [|reflexivity].
  destruct Hne. apply H. reflexivity.
Qed.

(** C1.  A layer read from an existing shapefile is always returned.  When
    its CRS already is EPSG:25832 the returned frame is the frame that was
    read, unchanged; when it has another CRS the returned frame carries
    EPSG:25832; when it has none the frame that was read is returned
    unchanged and the missing-CRS warning is the last line written to the
    diagnostic stream. *)
Theorem load_vector_crs (path : Path) (gdf : GeoDataFrame) (w : World) :
  fs w !! path = Some (Shapefile gdf) →
  ∃ r w' g',
    _load_vector path w = (Ok r, w') ∧ objs w' !! r = Some g' ∧
    (∀ c, crs gdf = Some c → to_epsg c = Some TARGET_EPSG → g' = gdf) ∧
    (∀ c, crs gdf = Some c → to_epsg c ≠ Some TARGET_EPSG →
          (crs g' ≫= to_epsg) = Some 25832%Z) ∧
    (crs gdf = None →
          g' = gdf ∧
          last (stderr w') = Some ("[warn] missing CRS on layer: " +:+ path_name path)).
Proof.
  intros Hfile. rewrite (load_vector_run _ _ _ Hfile). unfold loaded.
  destruct (crs gdf) as [c|] eqn:Hcrs.
  - destruct (decide (to_epsg c ≠ Some TARGET_EPSG)) as [Hne|Heq].
    + eexists _, _, (working_frame gdf). split; [reflexivity|].
      split.
      { destruct (empty gdf); proj_world.
        all: replace (S (length (objs w))) with (length (objs w ++ [gdf])%list)
          by (rewrite length_app; cbn; lia).
        all: apply lookup_new. }
      split; [intros c' Hc' He; congruence|].
      split; [|discriminate].
      intros _ _ _. rewrite (working_frame_crs gdf c Hcrs Hne). reflexivity.
    + eexists _, _, gdf. split; [reflexivity|].
      split; [destruct (empty gdf); proj_world; apply lookup_new|].
      split; [reflexivity|].
      split; [|discriminate].
      intros c' Hc' Hne. destruct Heq. congruence.
  - eexists _, _, gdf. split; [reflexivity|].
    split; [destruct (empty gdf); proj_world; apply lookup_new|].
    split; [discriminate|]. split; [discriminate|].
    intros _. split; [reflexivity|].
    destruct (empty gdf); proj_world; apply last_snoc.
Qed.

(** ** The Raster Mosaicker *)

Definition open_dataset (tif : Path) (r : Raster) : Dataset :=
  {| ds_name := tif; ds_raster := r; ds_closed := false |}.

Definition closed_dataset (d : Dataset) : Dataset :=
  {| ds_name := ds_name d; ds_raster := ds_raster d; ds_closed := true |}.

(** Every path of [tifs] names a raster file, [rasters] being their contents. *)
Definition tiles_at (w : World) (tifs : list Path) (rasters : list Raster) : Prop :=
  Forall2 (λ tif r, fs w !! tif = Some (GeoTiff r)) tifs rasters.

Lemma open_sources_run (tifs : list Path) (rasters : list Raster) :
  ∀ (acc : list nat) (w : World),
    tiles_at w tifs rasters →
    ∃ w1, open_sources tifs acc w
            = (Ok (acc ++ seq (length (handles w)) (length tifs))%list, w1)
          ∧ handles w1 = (handles w ++ zip_with open_dataset tifs rasters)%list
          ∧ fs w1 = fs w ∧ objs w1 = objs w.
Proof.
  unfold tiles_at. intros acc w H. revert acc w H.
  induction tifs as [|tif tifs IH] in rasters |- *; intros acc w H.
  - inversion H; subst. exists w. cbn. rewrite !app_nil_r. auto.
  - inversion H as [|? r ? rs Hfile Hrest]; subst.
    cbn [open_sources]. unfold rasterio_open, dataset. mstep. rewrite Hfile. mstep.
    set (d := {| ds_name := tif; ds_raster := r; ds_closed := false |}).
    replace ((handles w ++ [d])%list !! length (handles w)) with (Some d)
      by (rewrite lookup_app_r by lia; rewrite Nat.sub_diag; reflexivity).
    mstep. cbn [ds_raster d].
    set (warn := match r_crs r with
                 | None => _
                 | Some c => _
                 end).
    assert (Hw : ∃ w0, warn (set_handles (λ l, (l ++ [d])%list) w) = (Ok (), w0)
                       ∧ handles w0 = (handles w ++ [d])%list
                       ∧ fs w0 = fs w ∧ objs w0 = objs w).
    { subst warn. destruct (r_crs r) as [c|].
      - destruct (decide (to_epsg c ≠ Some TARGET_EPSG)); mstep; eexists; eauto.
      - mstep. eexists; eauto. }
    destruct Hw as (w0 & Hrun & Hh & Hf & Ho). rewrite Hrun.
    destruct (IH rs (acc ++ [length (handles w)])%list w0) as (w1 & Hrun1 & Hh1 & Hf1 & Ho1).
    { rewrite Hf. exact Hrest. }
    exists w1. rewrite Hrun1, Hh1, Hh, Hf1, Ho1. rewrite length_app. cbn [length seq zip_with].
    rewrite <- !app_assoc. cbn [app]. rewrite Nat.add_1_r. auto.
Qed.

Lemma datasets_run (sources : list nat) (ds : list Dataset) (w : World) :
  Forall2 (λ src d, handles w !! src = Some d) sources ds →
  datasets sources w = (Ok ds, w).
Proof.
  induction 1 as [|src d sources ds Hsrc _ IH]; [reflexivity|].
  cbn [datasets]. unfold dataset at 1. mstep. rewrite Hsrc. rewrite bind_run, IH. reflexivity.
Qed.

Lemma close_run (src : nat) (d : Dataset) (w : World) :
  handles w !! src = Some d →
  close src w = (Ok (), set_handles (λ l, <[src := closed_dataset d]> l) w).
Proof. intros H. unfold close. rewrite H. reflexivity. Qed.

Lemma close_all_run (ds : list Dataset) :
  ∀ (pre : list Dataset) (w : World),
    handles w = (pre ++ ds)%list →
    ∃ w', for_each (seq (length pre) (length ds)) close w = (Ok (), w')
          ∧ handles w' = (pre ++ map closed_dataset ds)%list
          ∧ fs w' = fs w ∧ objs w' = objs w ∧ stderr w' = stderr w.
Proof.
  induction ds as [|d ds IH]; intros pre w Hw.
  - exists w. cbn. rewrite Hw. auto.
  - cbn [length seq for_each]. rewrite bind_run.
    rewrite (close_run (length pre) d)
      by (rewrite Hw, lookup_app_r by lia; rewrite Nat.sub_diag; reflexivity).
    destruct (IH (pre ++ [closed_dataset d])%list
                (set_handles (λ l, <[length pre := closed_dataset d]> l) w))
      as (w' & Hrun & Hh & Hf & Ho & He).
    { proj_world. rewrite Hw.
      rewrite insert_app_r_alt by lia. rewrite Nat.sub_diag. cbn.
      rewrite <- app_assoc. reflexivity. }
    rewrite length_app, Nat.add_1_r in Hrun. cbn [length] in Hrun.
    exists w'. split; [exact Hrun|]. rewrite Hh, <- app_assoc. cbn. auto.
Qed.

Lemma zip_open_rasters (tifs : list Path) (rasters : list Raster) :
  length tifs = length rasters →
  map ds_raster (zip_with open_dataset tifs rasters) = rasters.
Proof.
  revert rasters. induction tifs as [|t tifs IH]; intros [|r rs] Hlen; try discriminate.
  - reflexivity.
  - cbn. f_equal. apply IH. cbn in Hlen. lia.
Qed.

Lemma zip_open_all_open (tifs : list Path) (rasters : list Raster) :
  forallb (λ d, negb (ds_closed d)) (zip_with open_dataset tifs rasters) = true.
Proof.
  revert rasters. induction tifs as [|t tifs IH]; intros [|r rs]; cbn; auto.
Qed.

Lemma zip_open_lookup (pre : list Dataset) (tifs : list Path) (rasters : list Raster) :
  length tifs = length rasters →
  Forall2 (λ src d, (pre ++ zip_with open_dataset tifs rasters)%list !! src = Some d)
          (seq (length pre) (length tifs)) (zip_with open_dataset tifs rasters).
Proof.
  intros Hlen. apply Forall2_same_length_lookup_2.
  - rewrite length_seq, length_zip_with. lia.
  - intros i src d Hsrc Hd. apply lookup_seq in Hsrc as [-> _].
    rewrite lookup_app_r by lia. replace (length pre + i - length pre) with i by lia.
    exact Hd.
Qed.


(** C8.  On an empty list of tile paths the mosaicker returns the
    no-mosaic value [None] without raising, and it opens no dataset: the
    world, and so the list of handles, is left as it was. *)
Theorem mosaic_of_nothing (w : World) :
  _orthophoto_mosaic [] w = (Ok None, w) ∧
  handles (snd (_orthophoto_mosaic [] w)) = handles w.
Proof. split; reflexivity. Qed.

(** X6.  When [merge] raises, the exception leaves the function before the
    closing loop, and the datasets stay open. *)
Theorem mosaic_merge_failure_leaks
    (tifs : list Path) (rasters : list Raster) (e : Exn) (w : World) :
  tifs ≠ [] →
  tiles_at w tifs rasters →
  merge rasters = Raise e →
  ∃ w', _orthophoto_mosaic tifs w = (Raise e, w') ∧
        handles w' = (handles w ++ zip_with open_dataset tifs rasters)%list.
Proof.
  intros Hne Htiles Hmerge.
  pose proof (Forall2_length _ _ _ Htiles) as Hlen.
  destruct (open_sources_run tifs rasters [] w Htiles) as (w1 & Hopen & Hh1 & Hf1 & Ho1).
  unfold _orthophoto_mosaic. rewrite bind_run, Hopen. cbn [app].
  destruct tifs as [|tif tifs]; [contradiction|].
  cbn [length seq]. rewrite bind_run.
  change (length (handles w) :: seq (S (length (handles w))) (length tifs))
    with (seq (length (handles w)) (length (tif :: tifs))).
  unfold rasterio_merge. rewrite bind_run.
  rewrite (datasets_run _ (zip_with open_dataset (tif :: tifs) rasters))
    by (rewrite Hh1; apply zip_open_lookup; exact Hlen).
  rewrite zip_open_all_open, zip_open_rasters by exact Hlen.
  unfold lift. rewrite Hmerge. exists w1. split; [reflexivity | exact Hh1].
Qed.

(** ** Tree sampling *)

(** What the seeded draw is assumed to deliver: [k] distinct row positions
    of a population of [n] rows. *)
Definition choice_draws : Prop :=
  ∀ seed n k, k ≤ n →
    length (choice seed n k) = k ∧ Forall (λ i, i < n) (choice seed n k)
    ∧ NoDup (choice seed n k).

Definition sampled (max_trees : Z) (g : GeoDataFrame) : GeoDataFrame :=
  rows (λ A, pick (choice 42 (len g) (Z.to_nat max_trees))) g.

Lemma sample_trees_skip (max_trees : Z) (trees : ref) (g : GeoDataFrame) (w : World) :
  objs w !! trees = Some g →
  (max_trees = 0 ∨ Z.of_nat (len g) ≤ max_trees)%Z →
  sample_trees max_trees trees w = (Ok trees, w).
Proof.
  intros Hg Hcap. unfold sample_trees. rewrite bind_run, (deref_ok _ _ _ Hg).
  destruct Hcap as [-> | Hle].
  - reflexivity.
  - rewrite (bool_decide_eq_false_2 (max_trees < Z.of_nat (len g))%Z) by lia.
    rewrite andb_false_r. reflexivity.
Qed.

Lemma sample_trees_draw (max_trees : Z) (trees : ref) (g : GeoDataFrame) (w : World) :
  objs w !! trees = Some g →
  (0 < max_trees < Z.of_nat (len g))%Z →
  sample_trees max_trees trees w
  = (Ok (length (objs w)), set_objs (λ l, (l ++ [sampled max_trees g])%list) w).
Proof.
  intros Hg Hcap. unfold sample_trees. rewrite bind_run, (deref_ok _ _ _ Hg).
  rewrite (bool_decide_eq_true_2 (max_trees ≠ 0)%Z) by lia.
  rewrite (bool_decide_eq_true_2 (max_trees < Z.of_nat (len g))%Z) by lia.
  cbn [andb]. unfold sample, sample_frame. rewrite bind_run, (deref_ok _ _ _ Hg).
  rewrite (bool_decide_eq_false_2 (max_trees < 0)%Z) by lia.
  rewrite (bool_decide_eq_false_2 (Z.of_nat (len g) < max_trees)%Z) by lia.
  reflexivity.
Qed.

Lemma length_pick {A} (idx : list nat) (l : list A) :
  Forall (λ i, i < length l) idx → length (pick idx l) = length idx.
Proof.
  unfold pick. induction 1 as [|i idx Hi _ IH]; [reflexivity|].
  cbn. destruct (lookup_lt_is_Some_2 l i Hi) as [x Hx]. rewrite Hx. cbn. f_equal. exact IH.
Qed.

Lemma col_len_pick (idx : list nat) (c : Column) :
  Forall (λ i, i < col_len c) idx → col_len (col_rows (λ A, pick idx) c) = length idx.
Proof. destruct c; cbn; apply length_pick. Qed.

Lemma len_sampled (max_trees : Z) (g : GeoDataFrame) :
  choice_draws → (0 < max_trees < Z.of_nat (len g))%Z →
  Z.of_nat (len (sampled max_trees g)) = max_trees.
Proof.
  intros Hch Hcap. unfold sampled, rows, len at 1. cbn [columns].
  destruct (Hch 42%Z (len g) (Z.to_nat max_trees)) as (Hlen & Hlt & _); [lia|].
  unfold len in *. destruct (columns g) as [|[k c] cs]; [cbn in Hcap; lia|].
  cbn [map fst snd]. rewrite col_len_pick by exact Hlt. rewrite Hlen. lia.
Qed.

(** *** Loading, in closed form *)

Definition loadable (w : World) (file : Path) : Prop :=
  match fs w !! file with
  | Some (Shapefile _) | None => True
  | Some _ => False
  end.

(** The layer the composers hold for a file: the loaded frame in the working
    projection, or the empty frame when the file is absent. *)
Definition layer_at (w : World) (file : Path) : GeoDataFrame :=
  match fs w !! file with
  | Some (Shapefile gdf) => working_frame gdf
  | _ => empty_frame
  end.

Lemma loaded_spec (path : Path) (gdf : GeoDataFrame) (w : World) :
  ∃ r w', loaded path gdf w = (Ok r, w') ∧ objs w' !! r = Some (working_frame gdf)
          ∧ fs w' = fs w ∧ objs w `prefix_of` objs w'.
Proof.
  unfold loaded, working_frame.
  destruct (crs gdf) as [c|] eqn:Hcrs.
  - destruct (decide (to_epsg c ≠ Some TARGET_EPSG)).
    + eexists _, _. split; [reflexivity|].
      destruct (to_crs_frame TARGET_EPSG gdf) eqn:Hto;
        [|unfold to_crs_frame in Hto; rewrite Hcrs in Hto; discriminate].
      destruct (empty gdf); proj_world.
      all: split; [replace (S (length (objs w))) with (length (objs w ++ [gdf])%list)
                     by (rewrite length_app; cbn; lia); apply lookup_new|].
      all: split; [reflexivity|]. all: rewrite <- app_assoc; apply prefix_app_r; reflexivity.
    + eexists _, _. split; [reflexivity|].
      destruct (empty gdf); proj_world.
      all: split; [apply lookup_new|]. all: split; [reflexivity|].
      all: apply prefix_app_r; reflexivity.
  - eexists _, _. split; [reflexivity|].
    destruct (empty gdf); proj_world.
    all: split; [apply lookup_new|]. all: split; [reflexivity|].
    all: apply prefix_app_r; reflexivity.
Qed.

Lemma load_or_empty_run (file : Path) (w : World) :
  loadable w file →
  ∃ r w', load_or_empty file w = (Ok r, w') ∧ objs w' !! r = Some (layer_at w file)
          ∧ fs w' = fs w ∧ objs w `prefix_of` objs w'.
Proof.
  unfold loadable, layer_at, load_or_empty, exists_. intros Hl. rewrite bind_run.
  destruct (fs w !! file) as [[gdf| | |]|] eqn:Hfile; try contradiction.
  - rewrite bool_decide_eq_true_2 by eauto.
    rewrite (load_vector_run _ _ _ Hfile). apply loaded_spec.
  - rewrite bool_decide_eq_false_2 by (intros [? ?]; discriminate).
    eexists _, _. split; [reflexivity|]. proj_world.
    split; [apply lookup_new|]. split; [reflexivity|]. apply prefix_app_r. reflexivity.
Qed.

(** The tree layer after lines 109-110 / 195-196, as a function of the layer
    before them. *)
Definition tree_policy (max_trees : Z) (g : GeoDataFrame) : GeoDataFrame :=
  if bool_decide (max_trees ≠ 0%Z) && bool_decide (max_trees < Z.of_nat (len g))%Z
  then sampled max_trees g
  else g.

Lemma sample_trees_run (max_trees : Z) (trees : ref) (g : GeoDataFrame) (w : World) :
  (0 ≤ max_trees)%Z → objs w !! trees = Some g →
  ∃ r w', sample_trees max_trees trees w = (Ok r, w')
          ∧ objs w' !! r = Some (tree_policy max_trees g)
          ∧ fs w' = fs w ∧ objs w `prefix_of` objs w'.
Proof.
  intros Hcap Hg. unfold tree_policy.
  destruct (decide (max_trees = 0 ∨ Z.of_nat (len g) ≤ max_trees)%Z) as [Hskip|Hdraw].
  - rewrite (sample_trees_skip _ _ _ _ Hg Hskip).
    exists trees, w. split; [reflexivity|].
    replace (bool_decide (max_trees ≠ 0%Z) && bool_decide (max_trees < Z.of_nat (len g))%Z)
      with false; [auto|].
    destruct Hskip as [-> | Hle]; [reflexivity|].
    rewrite (bool_decide_eq_false_2 (max_trees < Z.of_nat (len g))%Z) by lia.
    rewrite andb_false_r. reflexivity.
  - assert (Hlt : (0 < max_trees < Z.of_nat (len g))%Z) by lia.
    rewrite (sample_trees_draw _ _ _ _ Hg Hlt).
    eexists _, _. split; [reflexivity|]. proj_world.
    rewrite (bool_decide_eq_true_2 (max_trees ≠ 0)%Z) by lia.
    rewrite (bool_decide_eq_true_2 (max_trees < Z.of_nat (len g))%Z) by lia.
    split; [apply lookup_new|]. split; [reflexivity|]. apply prefix_app_r. reflexivity.
Qed.

(** The tree layer the Static Composer goes on to draw. *)
Definition static_trees (data_dir : Path) (max_trees : Z) (w : World) : option GeoDataFrame :=
  match plot_layers_trees data_dir max_trees w with
  | (Ok [(trees, _)], w') => objs w' !! trees
  | _ => None
  end.

(** The tree layer the Interactive Composer goes on to centre and emit. *)
Definition interactive_trees (data_dir : Path) (max_trees : Z) (w : World)
  : option GeoDataFrame :=
  match export_load data_dir max_trees w with
  | (Ok (trees, _, _, _, _), w') => objs w' !! trees
  | _ => None
  end.

Definition layers_loadable (w : World) (data_dir : Path) : Prop :=
  loadable w (tree_file data_dir) ∧ loadable w (parcel_file data_dir)
  ∧ loadable w (building_file data_dir) ∧ loadable w (street_file data_dir)
  ∧ loadable w (green_file data_dir).

Lemma static_trees_run (data_dir : Path) (max_trees : Z) (gdf : GeoDataFrame) (w : World) :
  (0 ≤ max_trees)%Z →
  fs w !! tree_file data_dir = Some (Shapefile gdf) →
  static_trees data_dir max_trees w = Some (tree_policy max_trees (working_frame gdf)).
Proof.
  intros Hcap Hfile. unfold static_trees, plot_layers_trees, exists_. rewrite bind_run.
  rewrite bool_decide_eq_true_2 by eauto.
  rewrite bind_run, (load_vector_run _ _ _ Hfile).
  destruct (loaded_spec (tree_file data_dir) gdf w) as (r & w1 & -> & Hr & _).
  rewrite bind_run.
  destruct (sample_trees_run max_trees r _ w1 Hcap Hr) as (r' & w' & -> & Hr' & _).
  exact Hr'.
Qed.

Lemma loadable_fs (w w' : World) (file : Path) :
  fs w' = fs w → loadable w file → loadable w' file.
Proof. unfold loadable. intros ->. auto. Qed.

Lemma layer_at_fs (w w' : World) (file : Path) :
  fs w' = fs w → layer_at w' file = layer_at w file.
Proof. unfold layer_at. intros ->. reflexivity. Qed.

(** Lines 189-193 in closed form: five references into a store that holds
    the five layers, with the sampling step still to run. *)
Lemma export_load_run (data_dir : Path) (max_trees : Z) (w : World) :
  layers_loadable w data_dir →
  ∃ trees parcels buildings streets greens w5,
    export_load data_dir max_trees w
    = (sample_trees max_trees trees
         ≫= λ trees, mret (trees, parcels, buildings, streets, greens)) w5
    ∧ objs w5 !! trees = Some (layer_at w (tree_file data_dir))
    ∧ objs w5 !! parcels = Some (layer_at w (parcel_file data_dir))
    ∧ objs w5 !! buildings = Some (layer_at w (building_file data_dir))
    ∧ objs w5 !! streets = Some (layer_at w (street_file data_dir))
    ∧ objs w5 !! greens = Some (layer_at w (green_file data_dir))
    ∧ fs w5 = fs w.
Proof.
  intros (Ht & Hp & Hb & Hs & Hg). unfold export_load.
  destruct (load_or_empty_run _ w Ht) as (t & w1 & Hrun1 & Ho1 & Hf1 & Hpre1).
  destruct (load_or_empty_run _ w1 (loadable_fs _ _ _ Hf1 Hp))
    as (p & w2 & Hrun2 & Ho2 & Hf2 & Hpre2).
  rewrite Hf1 in Hf2.
  destruct (load_or_empty_run _ w2 (loadable_fs _ _ _ Hf2 Hb))
    as (b & w3 & Hrun3 & Ho3 & Hf3 & Hpre3).
  rewrite Hf2 in Hf3.
  destruct (load_or_empty_run _ w3 (loadable_fs _ _ _ Hf3 Hs))
    as (s & w4 & Hrun4 & Ho4 & Hf4 & Hpre4).
  rewrite Hf3 in Hf4.
  destruct (load_or_empty_run _ w4 (loadable_fs _ _ _ Hf4 Hg))
    as (g & w5 & Hrun5 & Ho5 & Hf5 & Hpre5).
  rewrite Hf4 in Hf5.
  rewrite (layer_at_fs w w1) in Ho2 by exact Hf1.
  rewrite (layer_at_fs w w2) in Ho3 by exact Hf2.
  rewrite (layer_at_fs w w3) in Ho4 by exact Hf3.
  rewrite (layer_at_fs w w4) in Ho5 by exact Hf4.
  exists t, p, b, s, g, w5.
  rewrite (bind_ok _ _ _ _ _ Hrun1), (bind_ok _ _ _ _ _ Hrun2), (bind_ok _ _ _ _ _ Hrun3),
    (bind_ok _ _ _ _ _ Hrun4), (bind_ok _ _ _ _ _ Hrun5).
  split; [reflexivity|].
  repeat split; eauto using prefix_lookup_Some.
Qed.

Lemma interactive_trees_run (data_dir : Path) (max_trees : Z) (w : World) :
  (0 ≤ max_trees)%Z →
  layers_loadable w data_dir →
  interactive_trees data_dir max_trees w
  = Some (tree_policy max_trees (layer_at w (tree_file data_dir))).
Proof.
  intros Hcap Hl. unfold interactive_trees.
  destruct (export_load_run data_dir max_trees w Hl)
    as (t & p & b & s & g & w5 & -> & Ht & _).
  rewrite bind_run.
  destruct (sample_trees_run max_trees t _ w5 Hcap Ht) as (r' & w' & -> & Hr' & _).
  exact Hr'.
Qed.

(** C5.  With a positive cap, both composers hold the same tree layer for
    the same tree file, whatever else the two worlds contain.  When the
    loaded layer has more rows than the cap, that layer has exactly [cap]
    rows, drawn at distinct positions of the loaded layer; when it has at
    most [cap] rows it is the loaded layer itself. *)
Theorem tree_sampling_capped
    (data_dir : Path) (max_trees : Z) (gdf : GeoDataFrame) (w1 w2 : World) :
  choice_draws →
  (0 < max_trees)%Z →
  fs w1 !! tree_file data_dir = Some (Shapefile gdf) →
  fs w2 !! tree_file data_dir = Some (Shapefile gdf) →
  layers_loadable w1 data_dir →
  layers_loadable w2 data_dir →
  let trees := working_frame gdf in
  ∃ g,
    static_trees data_dir max_trees w1 = Some g ∧
    static_trees data_dir max_trees w2 = Some g ∧
    interactive_trees data_dir max_trees w1 = Some g ∧
    interactive_trees data_dir max_trees w2 = Some g ∧
    ((max_trees < Z.of_nat (len trees))%Z →
       Z.of_nat (len g) = max_trees ∧
       ∃ idx, NoDup idx ∧ Forall (λ i, i < len trees) idx ∧ g = rows (λ A, pick idx) trees) ∧
    ((Z.of_nat (len trees) ≤ max_trees)%Z → g = trees).
Proof.
  intros Hch Hcap Hf1 Hf2 Hl1 Hl2 trees.
  exists (tree_policy max_trees trees). subst trees.
  rewrite !(static_trees_run _ _ gdf) by (lia || assumption).
  rewrite !interactive_trees_run by (lia || assumption).
  unfold layer_at. rewrite Hf1, Hf2.
  repeat (split; [reflexivity|]).
  unfold tree_policy. split.
  - intros Hlt.
    rewrite (bool_decide_eq_true_2 (max_trees ≠ 0)%Z) by lia.
    rewrite (bool_decide_eq_true_2 _ Hlt). cbn [andb].
    split; [apply len_sampled; [exact Hch | lia]|].
    destruct (Hch 42%Z (len (working_frame gdf)) (Z.to_nat max_trees)) as (_ & Hlt' & Hnd); [lia|].
    eexists. split; [exact Hnd|]. split; [exact Hlt'|]. reflexivity.
  - intros Hle.
    rewrite (bool_decide_eq_false_2 (max_trees < Z.of_nat (len (working_frame gdf)))%Z) by lia.
    rewrite andb_false_r. reflexivity.
Qed.

(** C9.  With the cap set to zero both composers hold the loaded tree layer
    itself, whatever its size. *)
Theorem zero_cap_disables_sampling (data_dir : Path) (gdf : GeoDataFrame) (w : World) :
  fs w !! tree_file data_dir = Some (Shapefile gdf) →
  layers_loadable w data_dir →
  static_trees data_dir 0 w = Some (working_frame gdf) ∧
  interactive_trees data_dir 0 w = Some (working_frame gdf).
Proof.
  intros Hf Hl.
  rewrite static_trees_run with (gdf := gdf) by (lia || assumption).
  rewrite interactive_trees_run by (lia || assumption).
  unfold layer_at. rewrite Hf. split; reflexivity.
Qed.

(** ** Absent layers in the Static Composer *)

(** An absent parcel, building or street file is skipped in silence: the
    block returns the layers it was given and leaves the world as it was. *)
Lemma plot_layers_head_absent
    (file : Path) (style : Style) (layers : list (ref * Style)) (w : World) :
  fs w !! file = None → plot_layers_head file style layers w = (Ok layers, w).
Proof.
  intros Hf. unfold plot_layers_head, exists_. rewrite bind_run, Hf.
  rewrite bool_decide_eq_false_2 by (intros [? ?]; discriminate). reflexivity.
Qed.

Lemma plot_layers_trees_absent (data_dir : Path) (max_trees : Z) (w : World) :
  fs w !! tree_file data_dir = None →
  plot_layers_trees data_dir max_trees w
  = (Ok [], set_stderr (λ l, l ++ ["[warn] missing tree layer: "
                                    +:+ path_str (tree_file data_dir)]) w).
Proof.
  intros Hf. unfold plot_layers_trees, exists_. rewrite bind_run, Hf.
  rewrite bool_decide_eq_false_2 by (intros [? ?]; discriminate). reflexivity.
Qed.

(** A data directory that holds the tree shapefile and nothing else. *)
Definition one_tree : GeoDataFrame :=
  {| crs := Some (CRS_from_epsg 25832); geometry_name := "geometry";
     columns := [("geometry", GeomCol [GPoint 515000 5440000])] |}.

Definition only_trees : World :=
  {| fs := {[ tree_file ["data"] := Shapefile one_tree ]};
     objs := []; handles := []; stderr := []; stdout := []; shown := [] |}.

(** C6, on the code.  In a data directory where the parcel, building and
    street files are all absent, the Static Composer completes and draws
    the tree layer, and the diagnostic stream stays empty: none of the three
    absent layers is reported. *)
Theorem absent_layers_not_reported :
  fs only_trees !! parcel_file ["data"] = None ∧
  fs only_trees !! building_file ["data"] = None ∧
  fs only_trees !! street_file ["data"] = None ∧
  fst (plot_layers ["data"] 5000 false None only_trees) = Ok () ∧
  stderr (snd (plot_layers ["data"] 5000 false None only_trees)) = [].
Proof. vm_compute. repeat split. Qed.

(** ** The Attribute Sanitizer *)

(** What the loop body makes of one attribute column. *)
Definition sanitized (c : Column) : Column :=
  if is_datetime64_any_dtype c || is_timedelta64_dtype c then astype_str c
  else apply_isoformat c.

Definition sanitize_step (g : GeoDataFrame) (col : string) : GeoDataFrame :=
  if decide (col = geometry_name g) then g
  else match getitem g col with
       | Some c => setitem g col (sanitized c)
       | None => g
       end.

Definition sanitize_all (g : GeoDataFrame) : GeoDataFrame :=
  foldl sanitize_step g (columns g).*1.

Lemma assoc_is_Some (k : string) (cs : list (string * Column)) :
  k ∈ cs.*1 → is_Some (assoc k cs).
Proof.
  induction cs as [|[k0 c0] cs IH]; cbn; intros Hin.
  - inversion Hin.
  - destruct (decide (k0 = k)); [eauto|].
    apply IH. inversion Hin; subst; [contradiction | assumption].
Qed.

Lemma assoc_set_labels (k : string) (c c0 : Column) (cs : list (string * Column)) :
  assoc k cs = Some c0 → (assoc_set k c cs).*1 = cs.*1.
Proof.
  induction cs as [|[k1 c1] cs IH]; cbn; [discriminate|].
  destruct (decide (k1 = k)); cbn; [reflexivity|]. intros H. f_equal. apply IH, H.
Qed.

Lemma assoc_set_other (k k' : string) (c : Column) (cs : list (string * Column)) :
  k ≠ k' → assoc k' (assoc_set k c cs) = assoc k' cs.
Proof.
  intros Hne. induction cs as [|[k1 c1] cs IH]; cbn.
  - destruct (decide (k = k')); [contradiction | reflexivity].
  - destruct (decide (k1 = k)) as [->|]; cbn.
    + destruct (decide (k = k')); [contradiction | reflexivity].
    + destruct (decide (k1 = k')); [reflexivity | exact IH].
Qed.

Lemma assoc_set_same (k : string) (c : Column) (cs : list (string * Column)) :
  assoc k (assoc_set k c cs) = Some c.
Proof.
  induction cs as [|[k1 c1] cs IH]; cbn.
  - destruct (decide (k = k)); [reflexivity | contradiction].
  - destruct (decide (k1 = k)) as [->|Hne]; cbn.
    + destruct (decide (k = k)); [reflexivity | contradiction].
    + destruct (decide (k1 = k)); [contradiction | exact IH].
Qed.

Lemma sanitize_step_labels (g : GeoDataFrame) (col : string) :
  (columns (sanitize_step g col)).*1 = (columns g).*1.
Proof.
  unfold sanitize_step. destruct (decide (col = geometry_name g)); [reflexivity|].
  unfold getitem. destruct (assoc col (columns g)) eqn:H; [|reflexivity].
  cbn. eapply assoc_set_labels, H.
Qed.

Lemma sanitize_step_geometry_name (g : GeoDataFrame) (col : string) :
  geometry_name (sanitize_step g col) = geometry_name g.
Proof.
  unfold sanitize_step. destruct (decide (col = geometry_name g)); [reflexivity|].
  destruct (getitem g col); reflexivity.
Qed.

Lemma sanitize_step_crs (g : GeoDataFrame) (col : string) :
  crs (sanitize_step g col) = crs g.
Proof.
  unfold sanitize_step. destruct (decide (col = geometry_name g)); [reflexivity|].
  destruct (getitem g col); reflexivity.
Qed.

Lemma sanitize_step_geometry (g : GeoDataFrame) (col : string) :
  getitem (sanitize_step g col) (geometry_name g) = getitem g (geometry_name g).
Proof.
  unfold sanitize_step. destruct (decide (col = geometry_name g)); [reflexivity|].
  destruct (getitem g col); [|reflexivity].
  unfold getitem, setitem. cbn. apply assoc_set_other. assumption.
Qed.

Lemma sanitize_column_run (r : ref) (col : string) (g : GeoDataFrame) (w : World) :
  objs w !! r = Some g → col ∈ (columns g).*1 →
  ∃ w', sanitize_column r col w = (Ok (), w')
        ∧ objs w' = <[r := sanitize_step g col]> (objs w) ∧ fs w' = fs w.
Proof.
  intros Hg Hin. unfold sanitize_column, sanitize_step.
  rewrite bind_run, (deref_ok _ _ _ Hg).
  destruct (decide (col = geometry_name g)).
  - exists w. rewrite list_insert_id by exact Hg. auto.
  - destruct (assoc_is_Some _ _ Hin) as [c Hc]. unfold getitem. rewrite Hc.
    unfold sanitized, mutate.
    destruct (is_datetime64_any_dtype c || is_timedelta64_dtype c); rewrite Hg;
      eexists; split; try reflexivity; proj_world; auto.
Qed.

Lemma sanitize_loop_run (r : ref) (labels : list string) :
  ∀ (g : GeoDataFrame) (w : World),
    objs w !! r = Some g → labels ⊆ (columns g).*1 →
    ∃ w', for_each labels (sanitize_column r) w = (Ok (), w')
          ∧ objs w' = <[r := foldl sanitize_step g labels]> (objs w) ∧ fs w' = fs w.
Proof.
  induction labels as [|col labels IH]; intros g w Hg Hsub.
  - exists w. cbn. rewrite list_insert_id by exact Hg. auto.
  - cbn [for_each foldl].
    destruct (sanitize_column_run r col g w Hg) as (w1 & Hrun & Ho & Hf);
      [apply Hsub; left|].
    rewrite bind_run, Hrun.
    destruct (IH (sanitize_step g col) w1) as (w' & Hrun' & Ho' & Hf').
    + rewrite Ho. apply list_lookup_insert_eq. eapply lookup_lt_Some, Hg.
    + rewrite sanitize_step_labels. intros x Hx. apply Hsub. right. exact Hx.
    + exists w'. split; [exact Hrun'|]. rewrite Ho', Ho, list_insert_insert_eq, Hf', Hf. auto.
Qed.

(** The labels [_sanitize_attributes] asks [gdf[...]] for (lines 162-163). *)
Definition kept_labels (keep_cols : list string) (g : GeoDataFrame) : list string :=
  geometry_name g ::
  filter (λ c, c ∈ (columns g).*1 ∧ c ≠ geometry_name g) keep_cols.

(** The frame the loop of lines 164-170 starts from. *)
Definition retained_frame (keep_cols : option (list string)) (g : GeoDataFrame)
  : Result GeoDataFrame :=
  match keep_cols with
  | None => Ok g
  | Some keep_cols =>
      match select_columns (kept_labels keep_cols g) (columns g) with
      | Ok cs => Ok {| crs := crs g; geometry_name := geometry_name g; columns := cs |}
      | Raise e => Raise e
      end
  end.

Lemma select_columns_labels (labels : list string) (cs out : list (string * Column)) :
  select_columns labels cs = Ok out → out.*1 = labels.
Proof.
  revert out. induction labels as [|k labels IH]; cbn; intros out H.
  - inversion H. reflexivity.
  - destruct (assoc k cs); [|discriminate].
    destruct (select_columns labels cs); inversion H. cbn. f_equal. apply IH. reflexivity.
Qed.


Lemma select_columns_ok (labels : list string) (cs : list (string * Column)) :
  Forall (λ k, is_Some (assoc k cs)) labels → ∃ out, select_columns labels cs = Ok out.
Proof.
  induction 1 as [|k labels [c Hc] _ [out IH]]; cbn; [eauto|].
  rewrite Hc, IH. eauto.
Qed.

(** The run of [_sanitize_attributes] in closed form: the input frame is
    copied, the copy (or the frame selected from it) is sanitized in place,
    and the store only grows. *)
Lemma sanitize_attributes_run
    (gdf : ref) (keep_cols : option (list string)) (g : GeoDataFrame) (w : World) :
  objs w !! gdf = Some g →
  match retained_frame keep_cols g with
  | Ok g0 =>
      ∃ r w' pre,
        _sanitize_attributes gdf keep_cols w = (Ok r, w')
        ∧ objs w' = objs w ++ pre ++ [sanitize_all g0]
        ∧ r = length (objs w ++ pre) ∧ fs w' = fs w
  | Raise e =>
      ∃ w', _sanitize_attributes gdf keep_cols w = (Raise e, w')
            ∧ objs w' = objs w ++ [g] ∧ fs w' = fs w
  end.
Proof.
  intros Hg. unfold retained_frame.
  assert (Hcopy : ∀ B (k : ref → M B),
            (copy gdf ≫= k) w = k (length (objs w)) (set_objs (λ l, l ++ [g]) w)).
  { intros B k. unfold copy. rewrite !bind_run, (deref_ok _ _ _ Hg). reflexivity. }
  destruct keep_cols as [keep_cols|].
  - destruct (select_columns (kept_labels keep_cols g) (columns g)) as [cs|e] eqn:Hsel.
    + set (g0 := {| crs := crs g; geometry_name := geometry_name g; columns := cs |}).
      set (w1 := set_objs (λ l, l ++ [g0]) (set_objs (λ l, l ++ [g]) w)).
      destruct (sanitize_loop_run (S (length (objs w))) (columns g0).*1 g0 w1)
        as (w' & Hrun & Ho & Hf).
      { subst w1. proj_world.
        replace (S (length (objs w))) with (length (objs w ++ [g]))
          by (rewrite length_app; cbn; lia).
        apply lookup_new. }
      { reflexivity. }
      exists (S (length (objs w))), w', [g].
      split; [|split; [|split; [rewrite length_app; cbn; lia | exact Hf]]].
      * unfold _sanitize_attributes. rewrite Hcopy. unfold select.
        rewrite bind_assoc, (bind_deref _ g) by apply lookup_new.
        rewrite bind_assoc, (bind_deref _ g) by apply lookup_new.
        fold (kept_labels keep_cols g). rewrite Hsel.
        rewrite bind_assoc, bind_lift_ok, bind_new. proj_world.
        rewrite length_app. cbn [length]. rewrite Nat.add_1_r.
        fold g0. fold w1.
        rewrite (bind_deref _ g0).
        2:{ subst w1. proj_world.
            replace (S (length (objs w))) with (length (objs w ++ [g]))
              by (rewrite length_app; cbn; lia).
            apply lookup_new. }
        rewrite bind_run, Hrun. reflexivity.
      * rewrite Ho. subst w1. proj_world.
        replace (S (length (objs w))) with (length (objs w ++ [g]) + 0)
          by (rewrite length_app; cbn; lia).
        rewrite insert_app_r. cbn. rewrite <- app_assoc. reflexivity.
    + exists (set_objs (λ l, l ++ [g]) w). split; [|auto].
      unfold _sanitize_attributes. rewrite Hcopy. unfold select.
      rewrite bind_assoc, (bind_deref _ g) by apply lookup_new.
      rewrite bind_assoc, (bind_deref _ g) by apply lookup_new.
      fold (kept_labels keep_cols g). rewrite Hsel. reflexivity.
  - set (w1 := set_objs (λ l, l ++ [g]) w).
    destruct (sanitize_loop_run (length (objs w)) (columns g).*1 g w1)
      as (w' & Hrun & Ho & Hf).
    { subst w1. proj_world. apply lookup_new. }
    { reflexivity. }
    exists (length (objs w)), w', [].
    split; [|split; [|split; [rewrite app_nil_r; reflexivity | exact Hf]]].
    + unfold _sanitize_attributes. rewrite Hcopy, bind_ret.
      fold w1. rewrite (bind_deref _ g) by apply lookup_new.
      rewrite bind_run, Hrun. reflexivity.
    + rewrite Ho. subst w1. proj_world.
      replace (length (objs w)) with (length (objs w) + 0) at 1 by lia.
      rewrite insert_app_r. reflexivity.
Qed.

Lemma sanitize_fold_frame (labels : list string) :
  ∀ g, geometry_name (foldl sanitize_step g labels) = geometry_name g
       ∧ crs (foldl sanitize_step g labels) = crs g
       ∧ getitem (foldl sanitize_step g labels) (geometry_name g)
         = getitem g (geometry_name g).
Proof.
  induction labels as [|col labels IH]; intros g; [auto|].
  cbn [foldl]. destruct (IH (sanitize_step g col)) as (Hn & Hc & Hg).
  rewrite Hn, Hc, sanitize_step_geometry_name, sanitize_step_crs.
  rewrite sanitize_step_geometry_name in Hg. rewrite Hg, sanitize_step_geometry. auto.
Qed.

(** One column of the sanitized frame. *)
Definition sanitized_entry (gname : string) (kc : string * Column) : string * Column :=
  if decide (kc.1 = gname) then kc else (kc.1, sanitized kc.2).

Lemma sanitized_entry_labels (gname : string) (cs : list (string * Column)) :
  (map (sanitized_entry gname) cs).*1 = cs.*1.
Proof.
  induction cs as [|[k c] cs IH]; [reflexivity|]. cbn. f_equal; [|exact IH].
  unfold sanitized_entry. cbn. destruct (decide (k = gname)); reflexivity.
Qed.

Lemma assoc_app_notin (k : string) (l1 l2 : list (string * Column)) :
  k ∉ l1.*1 → assoc k (l1 ++ l2) = assoc k l2.
Proof.
  induction l1 as [|[k1 c1] l1 IH]; cbn; intros Hn; [reflexivity|].
  destruct (decide (k1 = k)) as [->|]; [destruct Hn; left|].
  apply IH. intros Hin. apply Hn. right. exact Hin.
Qed.

Lemma assoc_set_app_notin (k : string) (c : Column) (l1 l2 : list (string * Column)) :
  k ∉ l1.*1 → assoc_set k c (l1 ++ l2) = l1 ++ assoc_set k c l2.
Proof.
  induction l1 as [|[k1 c1] l1 IH]; cbn; intros Hn; [reflexivity|].
  destruct (decide (k1 = k)) as [->|]; [destruct Hn; left|].
  f_equal. apply IH. intros Hin. apply Hn. right. exact Hin.
Qed.

Lemma sanitize_fold_columns (gname : string) (c0 : option CRS) (todo : list (string * Column)) :
  ∀ done, NoDup (done ++ todo).*1 →
    columns (foldl sanitize_step
               {| crs := c0; geometry_name := gname;
                  columns := map (sanitized_entry gname) done ++ todo |} todo.*1)
    = map (sanitized_entry gname) (done ++ todo).
Proof.
  induction todo as [|[k c] todo IH]; intros done Hnd.
  - cbn. rewrite !app_nil_r. reflexivity.
  - cbn [fmap list_fmap foldl fst].
    assert (Hk : k ∉ (map (sanitized_entry gname) done).*1).
    { rewrite sanitized_entry_labels. rewrite fmap_app in Hnd.
      apply NoDup_app in Hnd as (_ & Hd & _). intros Hin. apply (Hd k Hin). left. }
    replace (done ++ (k, c) :: todo) with ((done ++ [(k, c)]) ++ todo) in *
      by (rewrite <- app_assoc; reflexivity).
    rewrite <- (IH (done ++ [(k, c)]) Hnd). f_equal.
    unfold sanitize_step. cbn [geometry_name]. rewrite map_app. cbn [map].
    rewrite <- app_assoc. cbn [app].
    destruct (decide (k = gname)) as [Heq|Hne].
    + unfold sanitized_entry at 3. cbn [fst]. rewrite decide_True by exact Heq. reflexivity.
    + unfold getitem, setitem. cbn [columns crs geometry_name].
      rewrite assoc_app_notin by exact Hk. cbn [assoc]. rewrite decide_True by reflexivity.
      rewrite assoc_set_app_notin by exact Hk. cbn [assoc_set].
      rewrite decide_True by reflexivity.
      unfold sanitized_entry at 3. cbn [fst snd]. rewrite decide_False by exact Hne.
      reflexivity.
Qed.






Lemma retained_frame_ok (keep_cols : option (list string)) (g : GeoDataFrame) :
  keep_cols = None ∨ is_Some (getitem g (geometry_name g)) →
  ∃ g0, retained_frame keep_cols g = Ok g0.
Proof.
  intros H. unfold retained_frame. destruct keep_cols as [ks|]; [|eauto].
  destruct H as [H|Hgeo]; [discriminate|].
  destruct (select_columns_ok (kept_labels ks g) (columns g)) as [cs ->]; [|eauto].
  unfold kept_labels. constructor; [exact Hgeo|].
  apply Forall_forall. intros k Hk. apply list_elem_of_filter in Hk as [[Hk _] _].
  apply assoc_is_Some, Hk.
Qed.

(** C10.  Whatever the outcome, sanitizing leaves the input frame, and every
    other frame already in the store, as it was; a successful run returns a
    frame that did not exist before.  The run succeeds whenever no retain
    list is given or the frame has its geometry column. *)
Theorem sanitize_leaves_input
    (gdf : ref) (keep_cols : option (list string)) (g : GeoDataFrame) (w : World) :
  objs w !! gdf = Some g →
  ∃ out w',
    _sanitize_attributes gdf keep_cols w = (out, w') ∧
    objs w' !! gdf = Some g ∧
    objs w `prefix_of` objs w' ∧
    (∀ r, out = Ok r → r ≠ gdf ∧ length (objs w) ≤ r < length (objs w')) ∧
    (keep_cols = None ∨ is_Some (getitem g (geometry_name g)) → ∃ r, out = Ok r).
Proof.
  intros Hg. pose proof (sanitize_attributes_run gdf keep_cols g w Hg) as Hrun.
  pose proof (lookup_lt_Some _ _ _ Hg) as Hlt.
  destruct (retained_frame keep_cols g) as [g0|e] eqn:Hret.
  - destruct Hrun as (r & w' & pre & Hrun & Ho & Hr & _).
    exists (Ok r), w'. split; [exact Hrun|]. rewrite Ho.
    split; [rewrite lookup_app_l by exact Hlt; exact Hg|].
    split; [apply prefix_app_r; reflexivity|].
    split; [|eauto].
    intros r' [= <-]. rewrite Hr, !length_app in *. cbn [length]. lia.
  - destruct Hrun as (w' & Hrun & Ho & _).
    exists (Raise e), w'. split; [exact Hrun|]. rewrite Ho.
    split; [rewrite lookup_app_l by exact Hlt; exact Hg|].
    split; [apply prefix_app_r; reflexivity|].
    split; [discriminate|].
    intros H. destruct (retained_frame_ok keep_cols g H) as [g0 Hg0]. congruence.
Qed.


(** ** The centre of the interactive map *)

(** The frame [_to_wgs84] hands back for a frame that has a CRS. *)
Definition wgs84_frame (g : GeoDataFrame) : GeoDataFrame :=
  match crs g with
  | Some c =>
      if decide (to_epsg c ≠ Some 4326%Z) then
        match to_crs_frame 4326 g with
        | Ok g' => g'
        | Raise _ => g
        end
      else g
  | None => g
  end.

(** The midpoint of a bounding box, as [lat, lon]. *)
Definition midpoint (b : pyfloat * pyfloat * pyfloat * pyfloat) : pyfloat * pyfloat :=
  let '(minx, miny, maxx, maxy) := b in
  (fhalf (fadd miny maxy), fhalf (fadd minx maxx)).

Definition missing_crs : Exn := ValueError "Cannot convert to WGS84; missing CRS".

Lemma wgs84_frame_crs (g : GeoDataFrame) (c : CRS) :
  crs g = Some c → (crs (wgs84_frame g) ≫= to_epsg) = Some 4326%Z.
Proof.
  intros Hc. unfold wgs84_frame, to_crs_frame. rewrite Hc.
  destruct (decide (to_epsg c ≠ Some 4326%Z)) as [|Heq]; [reflexivity|].
  rewrite Hc. cbn. apply dec_stable in Heq. exact Heq.
Qed.

Lemma to_wgs84_missing_crs (gdf : ref) (g : GeoDataFrame) (w : World) :
  objs w !! gdf = Some g → crs g = None → _to_wgs84 gdf w = (Raise missing_crs, w).
Proof.
  intros Hg Hc. unfold _to_wgs84. rewrite (bind_deref _ g) by exact Hg. rewrite Hc.
  reflexivity.
Qed.

Lemma to_wgs84_run (gdf : ref) (g : GeoDataFrame) (c : CRS) (w : World) :
  objs w !! gdf = Some g → crs g = Some c →
  ∃ r w', _to_wgs84 gdf w = (Ok r, w') ∧ objs w' !! r = Some (wgs84_frame g)
          ∧ fs w' = fs w ∧ objs w `prefix_of` objs w'.
Proof.
  intros Hg Hc. unfold _to_wgs84, wgs84_frame. rewrite (bind_deref _ g) by exact Hg.
  rewrite Hc. destruct (decide (to_epsg c ≠ Some 4326%Z)).
  - unfold to_crs. rewrite (bind_deref _ g) by exact Hg.
    unfold to_crs_frame. rewrite Hc. rewrite bind_lift_ok.
    eexists _, _. split; [reflexivity|]. proj_world.
    split; [apply lookup_new|]. split; [reflexivity|]. apply prefix_app_r. reflexivity.
  - exists gdf, w. auto.
Qed.


Lemma first_non_empty_found
    (candidates : list ref) (frames before after : list GeoDataFrame)
    (g : GeoDataFrame) (w : World) :
  Forall2 (λ r g, objs w !! r = Some g) candidates frames →
  frames = before ++ g :: after →
  Forall (λ g, empty g = true) before →
  empty g = false →
  ∃ r, first_non_empty candidates w = (Ok (Some r), w) ∧ objs w !! r = Some g.
Proof.
  intros H. revert before. induction H as [|r g0 candidates frames Hr _ IH];
    intros before Hsplit Hbefore Hg.
  - destruct before; discriminate.
  - cbn [first_non_empty]. rewrite (bind_deref _ g0) by exact Hr.
    destruct before as [|b before]; cbn in Hsplit; injection Hsplit as -> ->.
    + rewrite Hg. cbn [negb]. eauto.
    + inversion Hbefore as [|? ? Hb Hrest]; subst. rewrite Hb. cbn [negb].
      apply (IH before); auto.
Qed.

(** The five layers are at their references. *)
Definition layers_at (w : World) (refs : list ref) (frames : list GeoDataFrame) : Prop :=
  Forall2 (λ r g, objs w !! r = Some g) refs frames.


Lemma map_center_found
    (trees parcels buildings streets greens : ref)
    (ft fp fb fs fg : GeoDataFrame) (before after : list GeoDataFrame)
    (g : GeoDataFrame) (w : World) :
  layers_at w [trees; parcels; streets; greens; buildings] [ft; fp; fs; fg; fb] →
  [ft; fp; fs; fg; fb] = before ++ g :: after →
  Forall (λ g, empty g = true) before →
  empty g = false →
  (crs g = None →
     map_center trees parcels buildings streets greens w = (Raise missing_crs, w)) ∧
  (∀ c, crs g = Some c →
     ∃ w', map_center trees parcels buildings streets greens w
           = (Ok (midpoint (total_bounds (wgs84_frame g))), w')).
Proof.
  intros Hat Hsplit Hbefore Hg.
  destruct (first_non_empty_found _ _ _ _ _ _ Hat Hsplit Hbefore Hg) as (r & Hfirst & Hr).
  unfold map_center. rewrite bind_run, Hfirst. rewrite (bind_deref _ g) by exact Hr.
  rewrite Hg. split.
  - intros Hc. rewrite bind_run, (to_wgs84_missing_crs _ _ _ Hr Hc). reflexivity.
  - intros c Hc. destruct (to_wgs84_run _ _ _ _ Hr Hc) as (r' & w' & Hrun & Hr' & _).
    rewrite bind_run, Hrun. rewrite (bind_deref _ (wgs84_frame g)) by exact Hr'.
    exists w'. unfold midpoint.
    destruct (total_bounds (wgs84_frame g)) as [[[minx miny] maxx] maxy]. reflexivity.
Qed.


(** *** Bounds *)







(** A layer that can be placed on the map: it has rows and a CRS. *)
Definition placeable (g : GeoDataFrame) : Prop := empty g = false ∧ is_Some (crs g).

Global Instance placeable_dec (g : GeoDataFrame) : Decision (placeable g).
Proof. unfold placeable. apply _. Defined.


(** C7.  When the first non-empty layer in the order trees, parcels,
    streets, greens, buildings has a CRS, the centre is the midpoint of the
    bounds of that layer brought to EPSG:4326; when it has none, the centre
    computation raises the missing-CRS error, as [_to_wgs84] does on any
    frame without a CRS. *)
Theorem map_center_is_reference_midpoint
    (trees parcels buildings streets greens : ref)
    (ft fp fb fs fg : GeoDataFrame) (before after : list GeoDataFrame)
    (g : GeoDataFrame) (w : World) :
  layers_at w [trees; parcels; streets; greens; buildings] [ft; fp; fs; fg; fb] →
  [ft; fp; fs; fg; fb] = before ++ g :: after →
  Forall (λ g, empty g = true) before →
  empty g = false →
  (∀ c, crs g = Some c →
     (crs (wgs84_frame g) ≫= to_epsg) = Some 4326%Z ∧
     ∃ w', map_center trees parcels buildings streets greens w
           = (Ok (midpoint (total_bounds (wgs84_frame g))), w')) ∧
  (crs g = None →
     map_center trees parcels buildings streets greens w
     = (Raise (ValueError "Cannot convert to WGS84; missing CRS"), w)) ∧
  (∀ r x w0, objs w0 !! r = Some x → crs x = None →
     _to_wgs84 r w0 = (Raise (ValueError "Cannot convert to WGS84; missing CRS"), w0)).
Proof.
  intros Hat Hsplit Hbefore Hg.
  destruct (map_center_found _ _ _ _ _ _ _ _ _ _ _ _ _ _ Hat Hsplit Hbefore Hg) as [Hnone Hsome].
  split; [|split].
  - intros c Hc. split; [eapply wgs84_frame_crs, Hc | eapply Hsome, Hc].
  - exact Hnone.
  - intros r x w0. apply to_wgs84_missing_crs.
Qed.


(** ** Further properties of the program *)

(** *** What the loader writes *)

(** The warnings of [_load_vector] for a frame read from [path]. *)
Definition load_warnings (path : Path) (gdf : GeoDataFrame) : list string :=
  (if empty gdf then ["[warn] empty layer: " +:+ path_str path] else [])
  ++ match crs gdf with
     | None => ["[warn] missing CRS on layer: " +:+ path_name path]
     | Some _ => []
     end.

(** X1.  Loading an existing shapefile never fails, not even on an empty
    layer or on one without CRS.  It writes exactly the warnings that apply
    to the diagnostic stream and touches neither the files, nor the standard
    output, nor any raster handle, nor a frame already in the store. *)
Theorem load_vector_reports (path : Path) (gdf : GeoDataFrame) (w : World) :
  fs w !! path = Some (Shapefile gdf) →
  ∃ r w',
    _load_vector path w = (Ok r, w') ∧
    stderr w' = stderr w ++ load_warnings path gdf ∧
    fs w' = fs w ∧ stdout w' = stdout w ∧ handles w' = handles w ∧
    objs w `prefix_of` objs w'.
Proof.
  intros Hfile. rewrite (load_vector_run _ _ _ Hfile). unfold loaded, load_warnings.
  destruct (crs gdf) as [c|]; [destruct (decide (to_epsg c ≠ Some TARGET_EPSG))|].
  all: eexists _, _; (split; [reflexivity|]); destruct (empty gdf); proj_world.
  all: repeat split; cbn [app]; rewrite ?app_nil_r, <- ?app_assoc; try reflexivity.
  all: apply prefix_app_r; reflexivity.
Qed.



(** *** Reprojection *)

Lemma len_assoc_set (k : string) (c c0 : Column) (cs : list (string * Column)) :
  assoc k cs = Some c0 → col_len c = col_len c0 →
  match assoc_set k c cs with [] => 0 | (_, c1) :: _ => col_len c1 end
  = match cs with [] => 0 | (_, c1) :: _ => col_len c1 end.
Proof.
  destruct cs as [|[k1 c1] cs]; cbn; [discriminate|].
  destruct (decide (k1 = k)); cbn; [intros [= ->]; auto | auto].
Qed.

Lemma to_crs_frame_spec (code : Z) (g : GeoDataFrame) (c : CRS) (cells : list Geometry) :
  crs g = Some c →
  getitem g (geometry_name g) = Some (GeomCol cells) →
  ∃ g', to_crs_frame code g = Ok g'
        ∧ crs g' = Some (CRS_from_epsg code)
        ∧ geometry_name g' = geometry_name g
        ∧ geometry g' = map (map_coords (transform c code)) cells
        ∧ len g' = len g
        ∧ (columns g').*1 = (columns g).*1
        ∧ ∀ col, col ≠ geometry_name g → getitem g' col = getitem g col.
Proof.
  intros Hc Hgeo. unfold to_crs_frame. rewrite Hc. eexists. split; [reflexivity|].
  unfold geometry, getitem, len in *. cbn [crs geometry_name columns]. rewrite Hgeo.
  rewrite assoc_set_same.
  split; [reflexivity|]. split; [reflexivity|]. split; [reflexivity|].
  split; [eapply len_assoc_set; [exact Hgeo | cbn; apply length_map]|].
  split; [eapply assoc_set_labels, Hgeo|].
  intros col Hne. apply assoc_set_other. congruence.
Qed.

(** X12.  [_to_wgs84] on a frame with a CRS: a frame already in EPSG:4326 is
    handed back as it is, the same object in an unchanged world; any other
    frame is left alone and a new frame is returned, in EPSG:4326, with
    every geometry transformed and with the same rows, labels and attribute
    columns. *)
Theorem to_wgs84_reprojects
    (gdf : ref) (g : GeoDataFrame) (c : CRS) (cells : list Geometry) (w : World) :
  objs w !! gdf = Some g →
  crs g = Some c →
  getitem g (geometry_name g) = Some (GeomCol cells) →
  ∃ r w' g',
    _to_wgs84 gdf w = (Ok r, w') ∧ objs w' !! r = Some g' ∧ objs w' !! gdf = Some g ∧
    (crs g' ≫= to_epsg) = Some 4326%Z ∧
    (to_epsg c = Some 4326%Z → r = gdf ∧ w' = w) ∧
    (to_epsg c ≠ Some 4326%Z →
       r ≠ gdf ∧
       geometry g' = map (map_coords (transform c 4326)) cells ∧
       len g' = len g ∧
       (columns g').*1 = (columns g).*1 ∧
       ∀ col, col ≠ geometry_name g → getitem g' col = getitem g col).
Proof.
  intros Hg Hc Hgeo. unfold _to_wgs84. rewrite (bind_deref _ g) by exact Hg. rewrite Hc.
  pose proof (lookup_lt_Some _ _ _ Hg) as Hlt.
  destruct (decide (to_epsg c ≠ Some 4326%Z)) as [Hne|Heq].
  - destruct (to_crs_frame_spec 4326 g c cells Hc Hgeo)
      as (g' & Hto & Hcrs & Hname & Hcells & Hlen & Hlab & Hcols).
    unfold to_crs. rewrite (bind_deref _ g) by exact Hg. rewrite Hto, bind_lift_ok.
    eexists _, _, g'. split; [reflexivity|]. proj_world.
    split; [apply lookup_new|].
    split; [rewrite lookup_app_l by exact Hlt; exact Hg|].
    split; [rewrite Hcrs; reflexivity|].
    split; [intros Heq; contradiction|].
    intros _. split; [lia|]. auto.
  - apply dec_stable in Heq. exists gdf, w, g. split; [reflexivity|].
    split; [exact Hg|]. split; [exact Hg|].
    split; [rewrite Hc; exact Heq|].
    split; [auto | intros Hne; contradiction].
Qed.

(** *** Drawing the vector layers *)



(** *** What the mosaicker reports and what it leaves open *)

(** The warning of lines 63-66 for one tile. *)
Definition tile_warnings (tif : Path) (r : Raster) : list string :=
  match r_crs r with
  | None => ["[warn] orthophoto missing CRS (used as-is): " +:+ path_name tif]
  | Some c =>
      if decide (to_epsg c ≠ Some TARGET_EPSG) then
        ["[warn] orthophoto not EPSG:" +:+ pretty TARGET_EPSG +:+ ", got "
         +:+ crs_name c +:+ " (" +:+ path_name tif +:+ ")"]
      else []
  end.

Lemma open_sources_reports (tifs : list Path) (rasters : list Raster) :
  ∀ (acc : list nat) (w : World),
    tiles_at w tifs rasters →
    ∃ w1, open_sources tifs acc w
            = (Ok (acc ++ seq (length (handles w)) (length tifs)), w1)
          ∧ handles w1 = handles w ++ zip_with open_dataset tifs rasters
          ∧ stderr w1 = stderr w ++ concat (zip_with tile_warnings tifs rasters)
          ∧ fs w1 = fs w ∧ objs w1 = objs w ∧ stdout w1 = stdout w.
Proof.
  unfold tiles_at. intros acc w H. revert acc w H.
  induction tifs as [|tif tifs IH] in rasters |- *; intros acc w H.
  - inversion H; subst. exists w. cbn. rewrite !app_nil_r. auto 7.
  - inversion H as [|? r ? rs Hfile Hrest]; subst.
    cbn [open_sources]. unfold rasterio_open, dataset. mstep. rewrite Hfile. mstep.
    set (d := {| ds_name := tif; ds_raster := r; ds_closed := false |}).
    replace ((handles w ++ [d]) !! length (handles w)) with (Some d)
      by (rewrite lookup_app_r by lia; rewrite Nat.sub_diag; reflexivity).
    mstep. cbn [ds_raster d].
    set (warn := match r_crs r with
                 | None => _
                 | Some c => _
                 end).
    assert (Hw : ∃ w0, warn (set_handles (λ l, l ++ [d]) w) = (Ok (), w0)
                       ∧ handles w0 = handles w ++ [d]
                       ∧ stderr w0 = stderr w ++ tile_warnings tif r
                       ∧ fs w0 = fs w ∧ objs w0 = objs w ∧ stdout w0 = stdout w).
    { subst warn. unfold tile_warnings. destruct (r_crs r) as [c|].
      - destruct (decide (to_epsg c ≠ Some TARGET_EPSG)); mstep; eexists;
          (split; [reflexivity|]); proj_world; rewrite ?app_nil_r; auto 7.
      - mstep. eexists. split; [reflexivity|]. proj_world. auto 7. }
    destruct Hw as (w0 & Hrun & Hh & He & Hf & Ho & Hs). rewrite Hrun.
    destruct (IH rs (acc ++ [length (handles w)]) w0)
      as (w1 & Hrun1 & Hh1 & He1 & Hf1 & Ho1 & Hs1).
    { rewrite Hf. exact Hrest. }
    exists w1. rewrite Hrun1, Hh1, Hh, He1, He, Hf1, Ho1, Hs1. rewrite length_app.
    cbn [length seq zip_with concat].
    rewrite <- !app_assoc. cbn [app]. rewrite Nat.add_1_r. auto 7.
Qed.

(** X4.  On tiles that open and merge, the mosaicker writes one warning for
    each tile whose CRS is missing or is not EPSG:25832, in the order of the
    tiles, and nothing for a tile in EPSG:25832; it changes neither files
    nor frames. *)
Theorem mosaic_reports_crs
    (tifs : list Path) (rasters : list Raster) (mt : Array * Affine) (w : World) :
  tifs ≠ [] →
  tiles_at w tifs rasters →
  merge rasters = Ok mt →
  ∃ w', _orthophoto_mosaic tifs w = (Ok (Some mt), w') ∧
        stderr w' = stderr w ++ concat (zip_with tile_warnings tifs rasters) ∧
        (Forall (λ r, (r_crs r ≫= to_epsg) = Some TARGET_EPSG) rasters →
           stderr w' = stderr w) ∧
        fs w' = fs w ∧ objs w' = objs w.
Proof.
  intros Hne Htiles Hmerge.
  pose proof (Forall2_length _ _ _ Htiles) as Hlen.
  destruct (open_sources_reports tifs rasters [] w Htiles)
    as (w1 & Hopen & Hh1 & He1 & Hf1 & Ho1 & _).
  unfold _orthophoto_mosaic. rewrite bind_run, Hopen. cbn [app].
  destruct tifs as [|tif tifs]; [contradiction|].
  cbn [length seq]. rewrite bind_run.
  change (length (handles w) :: seq (S (length (handles w))) (length tifs))
    with (seq (length (handles w)) (length (tif :: tifs))).
  assert (Hm : rasterio_merge (seq (length (handles w)) (length (tif :: tifs))) w1 = (Ok mt, w1)).
  { unfold rasterio_merge. rewrite bind_run.
    rewrite (datasets_run _ (zip_with open_dataset (tif :: tifs) rasters))
      by (rewrite Hh1; apply zip_open_lookup; exact Hlen).
    rewrite zip_open_all_open, zip_open_rasters by exact Hlen.
    unfold lift. rewrite Hmerge. reflexivity. }
  rewrite Hm. rewrite bind_run.
  destruct (close_all_run (zip_with open_dataset (tif :: tifs) rasters) (handles w) w1 Hh1)
    as (w' & Hclose & _ & Hf' & Ho' & He').
  rewrite length_zip_with, <- Hlen, Nat.min_id in Hclose.
  rewrite Hclose. exists w'. split; [reflexivity|].
  rewrite He', He1, Hf', Hf1, Ho', Ho1. split; [reflexivity|]. split; [|auto].
  intros Hall. clear - Hall Htiles.
  assert (Hnil : concat (zip_with tile_warnings (tif :: tifs) rasters) = []).
  { revert Htiles Hall. generalize (tif :: tifs). intros l Htiles.
    induction Htiles as [|t r ts rs _ _ IH]; intros Hall; [reflexivity|].
    inversion Hall as [|? ? Hr Hrest]; subst. cbn. rewrite (IH Hrest), app_nil_r.
    unfold tile_warnings. destruct (r_crs r) as [c|]; [|discriminate].
    cbn in Hr. destruct (decide (to_epsg c ≠ Some TARGET_EPSG)); [contradiction | reflexivity]. }
  rewrite Hnil, app_nil_r. reflexivity.
Qed.

Lemma open_sources_fails (good : list Path) (rasters : list Raster) (bad : Path)
    (rest : list Path) :
  ∀ (acc : list nat) (w : World),
    tiles_at w good rasters →
    (∀ r, fs w !! bad ≠ Some (GeoTiff r)) →
    ∃ w1, open_sources (good ++ bad :: rest) acc w = (Raise (RasterioIOError (path_str bad)), w1)
          ∧ handles w1 = handles w ++ zip_with open_dataset good rasters
          ∧ fs w1 = fs w.
Proof.
  unfold tiles_at.
  induction good as [|tif good IH] in rasters |- *; intros acc w H Hbad.
  - inversion H; subst. exists w. cbn [app open_sources zip_with].
    rewrite app_nil_r. split; [|auto].
    unfold rasterio_open. rewrite bind_run.
    destruct (fs w !! bad) as [[| r | |]|] eqn:Hb; try reflexivity.
    destruct (Hbad r). reflexivity.
  - inversion H as [|? r ? rs Hfile Hrest]; subst.
    cbn [app open_sources]. unfold rasterio_open, dataset. mstep. rewrite Hfile. mstep.
    set (d := {| ds_name := tif; ds_raster := r; ds_closed := false |}).
    replace ((handles w ++ [d]) !! length (handles w)) with (Some d)
      by (rewrite lookup_app_r by lia; rewrite Nat.sub_diag; reflexivity).
    mstep. cbn [ds_raster d].
    set (warn := match r_crs r with
                 | None => _
                 | Some c => _
                 end).
    assert (Hw : ∃ w0, warn (set_handles (λ l, l ++ [d]) w) = (Ok (), w0)
                       ∧ handles w0 = handles w ++ [d] ∧ fs w0 = fs w).
    { subst warn. destruct (r_crs r) as [c|].
      - destruct (decide (to_epsg c ≠ Some TARGET_EPSG)); mstep; eexists; eauto.
      - mstep. eexists; eauto. }
    destruct Hw as (w0 & Hrun & Hh & Hf). rewrite Hrun.
    destruct (IH rs (acc ++ [length (handles w)]) w0) as (w1 & Hrun1 & Hh1 & Hf1).
    { rewrite Hf. exact Hrest. }
    { intros r0. rewrite Hf. apply Hbad. }
    exists w1. rewrite Hrun1, Hh1, Hh, Hf1, Hf. cbn [zip_with].
    rewrite <- app_assoc. auto.
Qed.

(** X5.  When one of the paths cannot be opened, [_orthophoto_mosaic] raises
    at that path, and the datasets opened before it are still open: the
    closing loop is never reached. *)
Theorem mosaic_open_failure_leaks
    (good : list Path) (rasters : list Raster) (bad : Path) (rest : list Path) (w : World) :
  tiles_at w good rasters →
  (∀ r, fs w !! bad ≠ Some (GeoTiff r)) →
  ∃ w', _orthophoto_mosaic (good ++ bad :: rest) w
        = (Raise (RasterioIOError (path_str bad)), w') ∧
        handles w' = handles w ++ zip_with open_dataset good rasters ∧
        Forall (λ d, ds_closed d = false) (drop (length (handles w)) (handles w')).
Proof.
  intros Htiles Hbad.
  destruct (open_sources_fails good rasters bad rest [] w Htiles Hbad) as (w1 & Hrun & Hh & _).
  exists w1. unfold _orthophoto_mosaic. rewrite bind_run, Hrun.
  split; [reflexivity|]. split; [exact Hh|].
  rewrite Hh, drop_app_length. clear.
  revert rasters. induction good as [|t good IH]; intros [|r rs]; cbn; constructor; auto.
Qed.

(** *** Truncation and sampling in the composers *)

Lemma len_iloc_head (n : nat) (g : GeoDataFrame) : len (iloc_head n g) = n `min` len g.
Proof.
  unfold iloc_head, rows, len. cbn [columns].
  destruct (columns g) as [|[k c] cs]; cbn; [lia|].
  destruct c; cbn; apply length_take.
Qed.

(** X9.  A parcel, building or street file that exists is loaded, cut down
    to its first 5000 rows, and put behind the layers collected so far with
    its style; the cut keeps the CRS and the labels. *)
Theorem plot_layers_head_truncates
    (file : Path) (gdf : GeoDataFrame) (style : Style) (layers : list (ref * Style))
    (w : World) :
  fs w !! file = Some (Shapefile gdf) →
  ∃ r w' g',
    plot_layers_head file style layers w = (Ok (layers ++ [(r, style)]), w') ∧
    objs w' !! r = Some g' ∧
    g' = iloc_head 5000 (working_frame gdf) ∧
    len g' = 5000 `min` len (working_frame gdf) ∧
    crs g' = crs (working_frame gdf) ∧
    (columns g').*1 = (columns (working_frame gdf)).*1 ∧
    fs w' = fs w.
Proof.
  intros Hfile. unfold plot_layers_head, exists_. rewrite bind_run.
  rewrite bool_decide_eq_true_2 by eauto.
  rewrite bind_run, (load_vector_run _ _ _ Hfile).
  destruct (loaded_spec file gdf w) as (r & w1 & -> & Hr & Hf & _).
  unfold iloc. rewrite bind_assoc, (bind_deref _ _ _ _ Hr), bind_new.
  eexists _, _, _. split; [reflexivity|]. proj_world.
  split; [apply lookup_new|]. split; [reflexivity|].
  split; [apply len_iloc_head|]. split; [reflexivity|]. split; [|exact Hf].
  unfold iloc_head, rows. cbn [columns]. rewrite <- list_fmap_compose. reflexivity.
Qed.

Definition negative_sample : Exn :=
  ValueError "A negative number of rows requested. Please provide `n` >= 0.".

Lemma sample_trees_negative (max_trees : Z) (trees : ref) (g : GeoDataFrame) (w : World) :
  objs w !! trees = Some g → (max_trees < 0)%Z →
  sample_trees max_trees trees w = (Raise negative_sample, w).
Proof.
  intros Hg Hneg. unfold sample_trees. rewrite (bind_deref _ g) by exact Hg.
  rewrite (bool_decide_eq_true_2 (max_trees ≠ 0)%Z) by lia.
  rewrite (bool_decide_eq_true_2 (max_trees < Z.of_nat (len g))%Z) by lia.
  cbn [andb]. unfold sample, sample_frame. rewrite (bind_deref _ g) by exact Hg.
  rewrite (bool_decide_eq_true_2 (max_trees < 0)%Z) by lia. reflexivity.
Qed.

(** X11.  A negative cap is not a way to switch sampling off: whatever the
    size of the tree layer, [sample] is called with it and raises.  The
    Static Composer fails this way whenever the tree file exists, the
    Interactive Composer always, and neither writes a file. *)
Theorem negative_cap_raises
    (data_dir : Path) (max_trees : Z) (include_raster : bool) (out_png : option Path)
    (tiles : option string) (out_html : Path) (w : World) :
  (max_trees < 0)%Z →
  layers_loadable w data_dir →
  (is_Some (fs w !! tree_file data_dir) →
   ∃ w', plot_layers data_dir max_trees include_raster out_png w
         = (Raise (ValueError "A negative number of rows requested. Please provide `n` >= 0."),
            w')
         ∧ fs w' = fs w ∧ shown w' = shown w) ∧
  (∃ w', export_folium_map data_dir max_trees tiles out_html w
         = (Raise (ValueError "A negative number of rows requested. Please provide `n` >= 0."),
            w')
         ∧ fs w' = fs w).
Proof.
  intros Hneg Hl. split.
  - intros [f Hf]. destruct Hl as (Ht & _). unfold loadable in Ht. rewrite Hf in Ht.
    destruct f as [gdf| | |]; try contradiction.
    unfold plot_layers, plot_layers_trees, exists_.
    rewrite !bind_assoc, bind_run. rewrite bool_decide_eq_true_2 by eauto.
    rewrite !bind_assoc, bind_run, (load_vector_run _ _ _ Hf).
    assert (Hshown : shown (loaded (tree_file data_dir) gdf w).2 = shown w).
    { unfold loaded. destruct (crs gdf) as [c|]; [destruct (decide _)|];
        destruct (empty gdf); reflexivity. }
    destruct (loaded_spec (tree_file data_dir) gdf w) as (r & w1 & Heq & Hr & Hfs & _).
    rewrite Heq in *. cbn [snd] in Hshown.
    rewrite !bind_assoc, bind_run, (sample_trees_negative _ _ _ _ Hr Hneg).
    exists w1. auto.
  - destruct (export_load_run data_dir max_trees w Hl)
      as (t & p & b & s & g & w5 & Hrun & Ht & _ & _ & _ & _ & Hfs).
    unfold export_folium_map. rewrite bind_run, Hrun.
    rewrite bind_run, (sample_trees_negative _ _ _ _ Ht Hneg).
    exists w5. split; [reflexivity | exact Hfs].
Qed.

(** *** Which columns the sanitizer keeps, and what can be serialized *)

Lemma sanitize_fold_labels (labels : list string) :
  ∀ g, (columns (foldl sanitize_step g labels)).*1 = (columns g).*1.
Proof.
  induction labels as [|col labels IH]; intros g; [reflexivity|].
  cbn [foldl]. rewrite IH. apply sanitize_step_labels.
Qed.

(** X13.  With a retain list the sanitizer returns the geometry column first
    and then the listed columns that exist, in the order of the list; labels
    that name no column, and the geometry label itself, are ignored rather
    than raising.  Without a list every column is kept in place.  The CRS is
    kept either way. *)
Theorem sanitize_keeps_listed_columns
    (gdf : ref) (keep_cols : option (list string)) (g : GeoDataFrame) (w : World) :
  objs w !! gdf = Some g →
  is_Some (getitem g (geometry_name g)) →
  ∃ r w' g',
    _sanitize_attributes gdf keep_cols w = (Ok r, w') ∧ objs w' !! r = Some g' ∧
    crs g' = crs g ∧
    (columns g').*1 =
      match keep_cols with
      | None => (columns g).*1
      | Some ks =>
          geometry_name g :: filter (λ c, c ∈ (columns g).*1 ∧ c ≠ geometry_name g) ks
      end.
Proof.
  intros Hg Hgeo.
  pose proof (sanitize_attributes_run gdf keep_cols g w Hg) as Hrun.
  destruct (retained_frame_ok keep_cols g (or_intror Hgeo)) as [g0 Hg0].
  rewrite Hg0 in Hrun. destruct Hrun as (r & w' & pre & Hrun & Ho & Hr & _).
  exists r, w', (sanitize_all g0). split; [exact Hrun|].
  split; [rewrite Ho, Hr, app_assoc; apply lookup_new|].
  destruct (sanitize_fold_frame (columns g0).*1 g0) as (_ & Hcrs & _).
  fold (sanitize_all g0) in Hcrs. rewrite Hcrs.
  unfold sanitize_all. rewrite sanitize_fold_labels.
  unfold retained_frame in Hg0. destruct keep_cols as [ks|].
  - destruct (select_columns (kept_labels ks g) (columns g)) as [cs|] eqn:Hsel; [|discriminate].
    injection Hg0 as <-. cbn [crs columns]. split; [reflexivity|].
    apply (select_columns_labels _ _ _ Hsel).
  - injection Hg0 as <-. auto.
Qed.




(** *** Overlays of the interactive map *)

(** The geometry cells of a frame with CRS [c] once it is in EPSG:4326. *)
Definition wgs84_cells (c : CRS) (cells : list Geometry) : list Geometry :=
  if decide (to_epsg c ≠ Some 4326%Z) then map (map_coords (transform c 4326)) cells
  else cells.

Lemma wgs84_frame_spec (g : GeoDataFrame) (c : CRS) (cells : list Geometry) :
  crs g = Some c →
  getitem g (geometry_name g) = Some (GeomCol cells) →
  geometry_name (wgs84_frame g) = geometry_name g
  ∧ getitem (wgs84_frame g) (geometry_name g) = Some (GeomCol (wgs84_cells c cells))
  ∧ columns (wgs84_frame g)
    = (if decide (to_epsg c ≠ Some 4326%Z)
       then assoc_set (geometry_name g) (GeomCol (wgs84_cells c cells)) (columns g)
       else columns g).
Proof.
  intros Hc Hgeo. unfold wgs84_frame, wgs84_cells, to_crs_frame. rewrite Hc.
  destruct (decide (to_epsg c ≠ Some 4326%Z)); [|auto].
  unfold geometry, getitem in *. cbn [geometry_name columns]. rewrite Hgeo, assoc_set_same.
  auto.
Qed.

Lemma add_geojson_run
    (m : FoliumMap) (gdf : ref) (name : string) (style_function point_style : option Style)
    (g : GeoDataFrame) (c : CRS) (w : World) :
  objs w !! gdf = Some g → empty g = false → crs g = Some c →
  ∃ w',
    add_geojson m gdf name style_function point_style w
    = (match point_style with
       | Some ((_ :: _) as point_style) =>
           match getitem (sanitize_all (wgs84_frame g)) "geometry" with
           | Some (GeomCol cells) => add_markers point_style cells m
           | _ => Raise (AttributeError "geometry")
           end
       | _ =>
           match to_json (sanitize_all (wgs84_frame g)) with
           | Ok data => Ok (add_to (GeoJson data name style_function) m)
           | Raise e => Raise e
           end
       end, w')
    ∧ fs w' = fs w ∧ objs w `prefix_of` objs w'.
Proof.
  intros Hg Hne Hc. unfold add_geojson. rewrite (bind_deref _ g) by exact Hg. rewrite Hne.
  destruct (to_wgs84_run _ _ _ _ Hg Hc) as (r1 & w1 & Hrun1 & Hr1 & Hf1 & Hp1).
  rewrite bind_run, Hrun1.
  pose proof (sanitize_attributes_run r1 None (wgs84_frame g) w1 Hr1) as Hrun2.
  cbn [retained_frame] in Hrun2.
  destruct Hrun2 as (r2 & w2 & pre & Hrun2 & Ho2 & Hr2 & Hf2).
  rewrite bind_run, Hrun2.
  rewrite (bind_deref _ (sanitize_all (wgs84_frame g)))
    by (rewrite Ho2, Hr2, app_assoc; apply lookup_new).
  exists w2. split.
  - destruct point_style as [[|p ps]|].
    + destruct (to_json _); reflexivity.
    + destruct (getitem _ "geometry") as [[]|]; reflexivity.
    + destruct (to_json _); reflexivity.
  - split; [congruence|]. etransitivity; [exact Hp1|]. rewrite Ho2. apply prefix_app_r.
    reflexivity.
Qed.

(** An empty layer gets no overlay: the map and the world stay as they
    are, whatever the CRS of the layer. *)
Lemma add_geojson_skips_empty
    (m : FoliumMap) (gdf : ref) (name : string) (style_function point_style : option Style)
    (g : GeoDataFrame) (w : World) :
  objs w !! gdf = Some g → empty g = true →
  add_geojson m gdf name style_function point_style w = (Ok m, w).
Proof.
  intros Hg He. unfold add_geojson. rewrite (bind_deref _ g) by exact Hg. rewrite He.
  reflexivity.
Qed.

(** The marker of one tree. *)
Definition marker (point_style : Style) (cell : Geometry) : option Child :=
  match cell with
  | GPoint x y =>
      Some (CircleMarker (y, x)
              (dict_get point_style "radius" (SNum 2))
              (dict_get point_style "color" (SStr "green"))
              true
              (dict_get point_style "fill_opacity" (SNum 0.8))
              (dict_get point_style "opacity" (SNum 0.8)))
  | _ => None
  end.

Lemma add_markers_points (point_style : Style) (cells : list Geometry) :
  ∀ m, Forall (λ cell, is_Some (marker point_style cell)) cells →
       ∃ m', add_markers point_style cells m = Ok m'
             ∧ children m' = children m ++ omap (marker point_style) cells
             ∧ location m' = location m ∧ tiles m' = tiles m
             ∧ zoom_start m' = zoom_start m ∧ control_scale m' = control_scale m.
Proof.
  induction cells as [|cell cells IH]; intros m Hall.
  - exists m. cbn. rewrite app_nil_r. auto 6.
  - inversion Hall as [|? ? [mk Hmk] Hrest]; subst.
    destruct cell as [|x y| |]; try discriminate. cbn [add_markers point_yx].
    destruct (IH (add_to (CircleMarker (y, x)
                            (dict_get point_style "radius" (SNum 2))
                            (dict_get point_style "color" (SStr "green")) true
                            (dict_get point_style "fill_opacity" (SNum 0.8))
                            (dict_get point_style "opacity" (SNum 0.8))) m) Hrest)
      as (m' & Hrun & Hch & Hrest').
    exists m'. split; [exact Hrun|]. split; [|exact Hrest'].
    rewrite Hch. cbn. rewrite <- app_assoc. reflexivity.
Qed.

Lemma add_markers_not_a_point (point_style : Style) (cells : list Geometry) :
  ∀ m, ¬ Forall (λ cell, is_Some (marker point_style cell)) cells →
       ∃ msg, add_markers point_style cells m = Raise (AttributeError msg).
Proof.
  induction cells as [|cell cells IH]; intros m Hnot.
  - destruct Hnot. constructor.
  - destruct cell as [|x y|pts|ring]; cbn [add_markers point_yx]; eauto.
    all: apply IH; intros Hall; apply Hnot; constructor; [cbn; eauto | exact Hall].
Qed.

Lemma omap_marker_length (point_style : Style) (cells : list Geometry) :
  Forall (λ cell, is_Some (marker point_style cell)) cells →
  length (omap (marker point_style) cells) = length cells.
Proof.
  induction 1 as [|cell cells [mk Hmk] _ IH]; [reflexivity|].
  cbn. rewrite Hmk. cbn. f_equal. exact IH.
Qed.

(** X15.  A non-empty point layer whose geometry column is labelled
    [geometry] is emitted as one circle marker per row, at [lat, lon] = [y,
    x] of the row in EPSG:4326, with the given style and folium's defaults
    for what the style leaves out; the map is otherwise unchanged.  If some
    row is not a point, no overlay is produced and an [AttributeError] is
    raised. *)
Theorem add_geojson_markers
    (m : FoliumMap) (gdf : ref) (name : string) (style_function : option Style)
    (entry : string * StyleVal) (more : Style)
    (g : GeoDataFrame) (c : CRS) (cells : list Geometry) (w : World) :
  objs w !! gdf = Some g → empty g = false → crs g = Some c →
  geometry_name g = "geometry" →
  getitem g "geometry" = Some (GeomCol cells) →
  let point_style := entry :: more in
  (Forall (λ cell, is_Some (marker point_style cell)) cells →
     ∃ m' w',
       add_geojson m gdf name style_function (Some point_style) w = (Ok m', w') ∧
       children m' = children m ++ omap (marker point_style) (wgs84_cells c cells) ∧
       length (children m') = length (children m) + length cells ∧
       location m' = location m ∧ tiles m' = tiles m) ∧
  (¬ Forall (λ cell, is_Some (marker point_style cell)) cells →
     ∃ msg w',
       add_geojson m gdf name style_function (Some point_style) w
       = (Raise (AttributeError msg), w')).
Proof.
  intros Hg Hne Hc Hname Hgeo point_style.
  destruct (add_geojson_run m gdf name style_function (Some point_style) g c w Hg Hne Hc)
    as (w' & Hrun & _).
  rewrite <- Hname in Hgeo.
  destruct (wgs84_frame_spec g c cells Hc Hgeo) as (Hn84 & Hg84 & _).
  destruct (sanitize_fold_frame (columns (wgs84_frame g)).*1 (wgs84_frame g)) as (_ & _ & Hsan).
  fold (sanitize_all (wgs84_frame g)) in Hsan.
  rewrite Hn84, Hg84, Hname in Hsan. subst point_style. cbn match in Hrun.
  rewrite Hsan in Hrun. cbn match beta in Hrun.
  assert (Hpts : Forall (λ cell, is_Some (marker (entry :: more) cell)) cells
                 ↔ Forall (λ cell, is_Some (marker (entry :: more) cell)) (wgs84_cells c cells)).
  { unfold wgs84_cells. destruct (decide (to_epsg c ≠ Some 4326%Z)); [|reflexivity].
    rewrite Forall_fmap. apply Forall_iff. intros cell.
    destruct cell as [|x y| |]; cbn; try (split; intros [? ?]; discriminate).
    - destruct (transform c 4326 (x, y)). split; eauto. }
  split.
  - intros Hall. apply Hpts in Hall.
    destruct (add_markers_points (entry :: more) _ m Hall) as (m' & Hm & Hch & Hloc & Htiles & _).
    exists m', w'. rewrite Hrun, Hm. split; [reflexivity|]. split; [exact Hch|].
    split; [|auto]. rewrite Hch, length_app, omap_marker_length by exact Hall.
    f_equal. unfold wgs84_cells. destruct (decide _); [apply length_map | reflexivity].
  - intros Hnot. rewrite Hpts in Hnot.
    destruct (add_markers_not_a_point (entry :: more) _ m Hnot) as [msg Hm].
    exists msg, w'. rewrite Hrun, Hm. reflexivity.
Qed.

Lemma sanitize_all_columns (g : GeoDataFrame) :
  NoDup (columns g).*1 →
  columns (sanitize_all g) = map (sanitized_entry (geometry_name g)) (columns g).
Proof.
  intros Hnd. unfold sanitize_all.
  pose proof (sanitize_fold_columns (geometry_name g) (crs g) (columns g) [] Hnd) as H.
  cbn [map app] in H. destruct g as [c0 gname cs]. exact H.
Qed.






(** *** Sanitizing twice *)

Lemma sanitized_idem (c : Column) : sanitized (sanitized c) = sanitized c.
Proof.
  destruct c as [cells|v|v|v|v|v]; cbn; try reflexivity.
  - rewrite map_map. reflexivity.
  - rewrite map_map. reflexivity.
  - rewrite map_map. f_equal. apply map_ext. intros [ | | | | | | | | ]; reflexivity.
Qed.

Lemma sanitized_entry_idem (gname : string) (kc : string * Column) :
  sanitized_entry gname (sanitized_entry gname kc) = sanitized_entry gname kc.
Proof.
  unfold sanitized_entry. destruct (decide (kc.1 = gname)) as [Heq|Hne].
  - rewrite decide_True by exact Heq. reflexivity.
  - cbn [fst snd]. rewrite decide_False by exact Hne. rewrite sanitized_idem. reflexivity.
Qed.

Lemma sanitize_all_idem (g : GeoDataFrame) :
  NoDup (columns g).*1 → sanitize_all (sanitize_all g) = sanitize_all g.
Proof.
  intros Hnd.
  destruct (sanitize_fold_frame (columns g).*1 g) as (Hname & Hcrs & _).
  fold (sanitize_all g) in Hname, Hcrs.
  assert (Hcols : columns (sanitize_all g) = map (sanitized_entry (geometry_name g)) (columns g))
    by exact (sanitize_all_columns g Hnd).
  assert (Hnd' : NoDup (columns (sanitize_all g)).*1)
    by (rewrite Hcols, sanitized_entry_labels; exact Hnd).
  destruct (sanitize_fold_frame (columns (sanitize_all g)).*1 (sanitize_all g))
    as (Hname2 & Hcrs2 & _).
  fold (sanitize_all (sanitize_all g)) in Hname2, Hcrs2.
  pose proof (sanitize_all_columns (sanitize_all g) Hnd') as Hcols2.
  rewrite Hname, Hcols, map_map in Hcols2.
  rewrite (map_ext _ _ (sanitized_entry_idem (geometry_name g))), <- Hcols in Hcols2.
  destruct (sanitize_all (sanitize_all g)), (sanitize_all g). cbn in *. congruence.
Qed.

(** X14.  Sanitizing is idempotent: a second pass over a sanitized frame
    returns a new frame with the same content, since every date or time
    value the sanitizer rewrites has become a string that it leaves alone. *)
Theorem sanitize_twice_is_once (gdf : ref) (g : GeoDataFrame) (w : World) :
  objs w !! gdf = Some g →
  NoDup (columns g).*1 →
  ∃ r1 w1 r2 w2 g',
    _sanitize_attributes gdf None w = (Ok r1, w1) ∧
    _sanitize_attributes r1 None w1 = (Ok r2, w2) ∧
    r1 ≠ r2 ∧ objs w2 !! r1 = Some g' ∧ objs w2 !! r2 = Some g'.
Proof.
  intros Hg Hnd.
  pose proof (sanitize_attributes_run gdf None g w Hg) as Hrun1. cbn [retained_frame] in Hrun1.
  destruct Hrun1 as (r1 & w1 & pre1 & Hrun1 & Ho1 & Hr1 & _).
  assert (Hl1 : objs w1 !! r1 = Some (sanitize_all g))
    by (rewrite Ho1, Hr1, app_assoc; apply lookup_new).
  pose proof (sanitize_attributes_run r1 None (sanitize_all g) w1 Hl1) as Hrun2.
  cbn [retained_frame] in Hrun2.
  destruct Hrun2 as (r2 & w2 & pre2 & Hrun2 & Ho2 & Hr2 & _).
  exists r1, w1, r2, w2, (sanitize_all g).
  split; [exact Hrun1|]. split; [exact Hrun2|].
  pose proof (lookup_lt_Some _ _ _ Hl1) as Hlt.
  split; [rewrite Hr2, length_app; lia|].
  split.
  - rewrite Ho2. rewrite lookup_app_l by exact Hlt. exact Hl1.
  - rewrite Ho2, Hr2, app_assoc, lookup_new. rewrite sanitize_all_idem by exact Hnd.
    reflexivity.
Qed.

(** *** What a run leaves alone *)

(** A view of the world that does not see the store of frames or the
    diagnostic stream. *)
Definition blind {B} (view : World → B) : Prop :=
  (∀ f w, view (set_objs f w) = view w) ∧ (∀ f w, view (set_stderr f w) = view w).

(** A view that does not see the raster handles either. *)
Definition blind_to_handles {B} (view : World → B) : Prop :=
  blind view ∧ ∀ f w, view (set_handles f w) = view w.

(** The computation leaves the view as it found it, whatever its outcome. *)
Definition keeps {A B} (view : World → B) (c : M A) : Prop :=
  ∀ w, view (c w).2 = view w.

Lemma blind_fs : blind_to_handles fs.
Proof. repeat split. Qed.
Lemma blind_stdout : blind_to_handles stdout.
Proof. repeat split. Qed.
Lemma blind_shown : blind_to_handles shown.
Proof. repeat split. Qed.

Section Keeps.
Context {B : Type} (view : World → B) (Hblind : blind view).






























(** The mosaicker, for a view that does not see the handles. *)
Context (Hhandles : ∀ f w, view (set_handles f w) = view w).







Lemma keeps_glob_tiles (data_dir : Path) : keeps view (glob_tiles data_dir).
Proof. intros w. reflexivity. Qed.
End Keeps.

(** *** What the composers leave behind *)

















(** *** The CRS summary *)

(** The tiles [glob_tiles] finds among the files. *)
Definition tile_paths (files : gmap Path File) (data_dir : Path) : list Path :=
  merge_sort (λ p q, Is_true (path_leb p q))
    (List.filter (is_tile data_dir) (elements (dom files))).

(** The line [summarize_crs] prints for one layer. *)
Definition layer_report (files : gmap Path File) (entry : string * Path) : string :=
  match files !! entry.2 with
  | Some (Shapefile gdf) =>
      entry.1 +:+ ": CRS=" +:+ crs_str (crs gdf) +:+ " | " +:+ path_str entry.2
  | _ => entry.1 +:+ ": missing (" +:+ path_str entry.2 +:+ ")"
  end.

(** The distinct CRS values of the rasters, in the order of first sight. *)
Definition distinct_crs (rasters : list Raster) : list (option CRS) :=
  foldl (λ s r, set_add (r_crs r) s) [] rasters.

(** What stays as it is while [summarize_crs] runs. *)
Definition untouched (w w' : World) : Prop :=
  fs w' = fs w ∧ stderr w' = stderr w ∧ shown w' = shown w.

Lemma summarize_layer_run (entry : string * Path) (w : World) :
  ∃ r w',
    summarize_layer entry w = (r, w') ∧ untouched w w' ∧ handles w' = handles w ∧
    stdout w `prefix_of` stdout w' ∧
    (loadable w entry.2 → r = Ok () ∧ stdout w' = stdout w ++ [layer_report (fs w) entry]).
Proof.
  destruct entry as [name path]. unfold summarize_layer, exists_, loadable, layer_report.
  cbn [fst snd]. rewrite bind_run.
  destruct (fs w !! path) as [[gdf|r|f d|m]|] eqn:Hfile.
  all: try (rewrite bool_decide_eq_true_2 by eauto; unfold read_file_rows;
            rewrite bind_run, Hfile).
  - unfold new. cbn beta iota.
    rewrite (bind_deref _ (iloc_head 1 gdf)) by (proj_world; apply lookup_new).
    eexists _, _. split; [reflexivity|]. unfold untouched. proj_world.
    repeat split; try (apply prefix_app_r; reflexivity).
  - eexists _, _. split; [reflexivity|]. repeat split; [reflexivity | contradiction..].
  - eexists _, _. split; [reflexivity|]. repeat split; [reflexivity | contradiction..].
  - eexists _, _. split; [reflexivity|]. repeat split; [reflexivity | contradiction..].
  - rewrite bool_decide_eq_false_2 by (intros [? ?]; discriminate).
    eexists _, _. split; [reflexivity|]. unfold untouched. proj_world.
    repeat split; apply prefix_app_r; reflexivity.
Qed.

Lemma summarize_layers_run (entries : list (string * Path)) :
  ∀ w, ∃ r w',
    for_each entries summarize_layer w = (r, w') ∧ untouched w w' ∧ handles w' = handles w ∧
    stdout w `prefix_of` stdout w' ∧
    (Forall (λ e, loadable w e.2) entries →
       r = Ok () ∧ stdout w' = stdout w ++ map (layer_report (fs w)) entries).
Proof.
  induction entries as [|entry entries IH]; intros w.
  - exists (Ok ()), w. cbn. rewrite app_nil_r. repeat split; reflexivity.
  - cbn [for_each]. rewrite bind_run.
    destruct (summarize_layer_run entry w) as (r1 & w1 & -> & (Hf & He & Hs) & Hh & Hp & Hok).
    destruct r1 as [[]|e].
    + destruct (IH w1) as (r & w' & -> & (Hf' & He' & Hs') & Hh' & Hp' & Hok').
      exists r, w'. split; [reflexivity|]. split; [repeat split; congruence|].
      split; [congruence|]. split; [etransitivity; eassumption|].
      intros Hall. inversion Hall as [|? ? H1 Hrest]; subst.
      destruct (Hok H1) as [_ Hout]. destruct Hok' as [-> Hout'].
      { eapply Forall_impl; [exact Hrest|]. intros e. unfold loadable. rewrite Hf. auto. }
      split; [reflexivity|]. rewrite Hout', Hout, Hf, <- app_assoc. reflexivity.
    + exists (Raise e), w1. split; [reflexivity|]. split; [repeat split; assumption|].
      split; [exact Hh|]. split; [exact Hp|].
      intros Hall. inversion Hall as [|? ? H1 Hrest]; subst.
      destruct (Hok H1) as [? _]. discriminate.
Qed.

Lemma open_then_close (tif : Path) (r : Raster) (w : World) :
  fs w !! tif = Some (GeoTiff r) →
  ∀ (k : Dataset → M (list (option CRS))),
    (src ← rasterio_open tif; d ← dataset src; close src;; k d) w
    = k (open_dataset tif r)
        (set_handles (λ l, l ++ [closed_dataset (open_dataset tif r)]) w).
Proof.
  intros Hfile k. unfold rasterio_open, dataset. rewrite bind_run, Hfile, bind_run.
  proj_world. rewrite lookup_app_r by lia. rewrite Nat.sub_diag. cbn [lookup list_lookup].
  rewrite bind_run. unfold close. proj_world.
  rewrite lookup_app_r by lia. rewrite Nat.sub_diag. cbn [lookup list_lookup].
  f_equal. unfold set_handles. proj_world. f_equal.
  rewrite insert_app_r_alt by lia. rewrite Nat.sub_diag. reflexivity.
Qed.

Lemma sample_tile_crs_closes (tifs : list Path) :
  ∀ seen w, ∃ r w' opened,
    sample_tile_crs tifs seen w = (r, w') ∧ untouched w w' ∧ stdout w' = stdout w ∧
    handles w' = handles w ++ opened ∧
    Forall (λ d, ds_closed d = true) opened ∧ length opened ≤ length tifs.
Proof.
  induction tifs as [|tif tifs IH]; intros seen w.
  - exists (Ok seen), w, []. cbn. rewrite app_nil_r. repeat split; auto.
  - cbn [sample_tile_crs].
    destruct (fs w !! tif) as [[gdf|r|f d|m]|] eqn:Hfile.
    2: { rewrite (open_then_close tif r w Hfile
                    (λ d, sample_tile_crs tifs (set_add (r_crs (ds_raster d)) seen))).
         destruct (IH (set_add (r_crs (ds_raster (open_dataset tif r))) seen)
                      (set_handles (λ l, l ++ [closed_dataset (open_dataset tif r)]) w))
           as (r' & w' & opened & -> & Hun & Hs & Hh & Hall & Hlen).
         exists r', w', (closed_dataset (open_dataset tif r) :: opened).
         split; [reflexivity|]. split; [exact Hun|]. split; [exact Hs|].
         split; [rewrite Hh; proj_world; rewrite <- app_assoc; reflexivity|].
         split; [constructor; [reflexivity | exact Hall] | cbn; lia]. }
    all: unfold rasterio_open; rewrite bind_run, Hfile.
    all: eexists _, w, []; split; [reflexivity|]; rewrite app_nil_r.
    all: repeat split; auto; cbn; lia.
Qed.

Lemma sample_tile_crs_run (tifs : list Path) (rasters : list Raster) :
  ∀ seen w,
    tiles_at w tifs rasters →
    ∃ w', sample_tile_crs tifs seen w
          = (Ok (foldl (λ s r, set_add (r_crs r) s) seen rasters), w')
          ∧ stdout w' = stdout w.
Proof.
  unfold tiles_at. induction tifs as [|tif tifs IH] in rasters |- *; intros seen w H.
  - inversion H; subst. exists w. split; reflexivity.
  - inversion H as [|? r ? rs Hfile Hrest]; subst. cbn [sample_tile_crs foldl].
    rewrite (open_then_close tif r w Hfile
               (λ d, sample_tile_crs tifs (set_add (r_crs (ds_raster d)) seen))).
    cbn [open_dataset ds_raster].
    destruct (IH rs (set_add (r_crs r) seen)
                 (set_handles (λ l, l ++ [closed_dataset (open_dataset tif r)]) w) Hrest)
      as (w' & -> & Hs).
    exists w'. split; [reflexivity | exact Hs].
Qed.

Lemma glob_tiles_run (data_dir : Path) (w : World) :
  glob_tiles data_dir w = (Ok (tile_paths (fs w) data_dir), w).
Proof. reflexivity. Qed.

(** X7.  [summarize_crs] leaves no raster dataset open, however it ends: it
    opens at most five, closes each before the next, and a tile that fails
    to open finds the earlier ones closed.  It writes no file and no warning
    and shows no figure. *)
Theorem summarize_crs_closes_what_it_opens (data_dir : Path) (w : World) :
  let '(_, w') := summarize_crs data_dir w in
  fs w' = fs w ∧ stderr w' = stderr w ∧ shown w' = shown w ∧
  ∃ opened, handles w' = handles w ++ opened
            ∧ Forall (λ d, ds_closed d = true) opened ∧ length opened ≤ 5.
Proof.
  unfold summarize_crs. rewrite bind_run.
  destruct (summarize_layers_run (layer_files data_dir) w)
    as (r1 & w1 & -> & (Hf & He & Hs) & Hh & _).
  destruct r1 as [[]|e].
  2: { repeat split; try assumption. exists []. rewrite app_nil_r. repeat split; auto. cbn. lia. }
  rewrite bind_run, glob_tiles_run, bind_run.
  destruct (sample_tile_crs_closes (take 5 (tile_paths (fs w1) data_dir)) [] w1)
    as (r2 & w2 & opened & -> & (Hf2 & He2 & Hs2) & _ & Hh2 & Hall & Hlen).
  rewrite length_take in Hlen.
  assert (Hres : fs w2 = fs w ∧ stderr w2 = stderr w ∧ shown w2 = shown w ∧
                 ∃ opened, handles w2 = handles w ++ opened
                           ∧ Forall (λ d, ds_closed d = true) opened ∧ length opened ≤ 5).
  { repeat split; try congruence. exists opened. rewrite Hh2, Hh. repeat split; auto. lia. }
  destruct r2 as [seen|e]; [|exact Hres]. exact Hres.
Qed.

(** X8.  When every layer file is a shapefile or absent and the first five
    tiles open, [summarize_crs] returns after printing six lines: one for
    each layer in the order trees, parcels, buildings, streets, greens,
    giving the CRS of the file as stored or reporting it missing, and one
    for the orthophotos, giving the number of all tiles found and the
    distinct CRS of the first five only; with no tile that line ends in
    [n/a]. *)
Theorem summarize_crs_reports (data_dir : Path) (rasters : list Raster) (w : World) :
  layers_loadable w data_dir →
  tiles_at w (take 5 (tile_paths (fs w) data_dir)) rasters →
  ∃ w',
    summarize_crs data_dir w = (Ok (), w') ∧
    stdout w' =
      stdout w ++ map (layer_report (fs w)) (layer_files data_dir)
      ++ ["orthophoto tiles: " +:+ pretty (length (tile_paths (fs w) data_dir))
          +:+ " found; sample CRS="
          +:+ match distinct_crs rasters with
              | [] => "n/a"
              | _ => repr_set (distinct_crs rasters)
              end] ∧
    (tile_paths (fs w) data_dir = [] → distinct_crs rasters = []) ∧
    length (distinct_crs rasters) ≤ 5.
Proof.
  intros (Ht & Hp & Hb & Hs & Hg) Htiles.
  unfold summarize_crs. rewrite bind_run.
  destruct (summarize_layers_run (layer_files data_dir) w)
    as (r1 & w1 & -> & (Hf & _) & _ & _ & Hok).
  destruct Hok as [-> Hout]; [repeat constructor; assumption|].
  rewrite bind_run, glob_tiles_run, bind_run, Hf.
  destruct (sample_tile_crs_run (take 5 (tile_paths (fs w) data_dir)) rasters [] w1)
    as (w2 & -> & Hs2).
  { unfold tiles_at in *. rewrite Hf. exact Htiles. }
  eexists. split; [reflexivity|]. unfold print, distinct_crs. proj_world.
  rewrite Hs2, Hout, <- app_assoc. split; [reflexivity|].
  pose proof (Forall2_length _ _ _ Htiles) as Hlen. rewrite length_take in Hlen.
  split.
  - intros Hnil. rewrite Hnil in Hlen. destruct rasters; [reflexivity | discriminate].
  - assert (Hgrow : ∀ rs seen,
              length (foldl (λ s r, set_add (r_crs r) s) seen rs) ≤ length seen + length rs).
    { induction rs as [|r rs IH]; intros seen; cbn [foldl length]; [lia|].
      etransitivity; [apply IH|]. unfold set_add. destruct (decide _); [lia|].
      rewrite length_app. cbn. lia. }
    specialize (Hgrow rasters []). cbn [length] in Hgrow. lia.
Qed.

End QuickView.

(** ** Concrete runs *)

(** Stand-ins for the library computations: a transformation that leaves
    coordinates alone, a draw that takes the first rows, a merge that keeps
    the bands of the first raster, and a rendering of day counts. *)
Definition same_coords : CRS → Z → Q * Q → Q * Q := λ _ _ p, p.

Definition first_rows : Z → nat → nat → list nat := λ _ _ k, seq 0 k.

Definition first_raster : list Raster → Result (Array * Affine) :=
  λ rasters,
    match rasters with
    | r :: _ => Ok (r_bands r, r_transform r)
    | [] => Raise (MergeError "No input dataset specified.")
    end.

Definition day_counts : list (option Z) → list string :=
  map (λ o, match o with Some n => pretty n +:+ " days" | None => "NaT" end).

Lemma first_rows_draws : choice_draws first_rows.
Proof.
  intros seed n k Hk. unfold first_rows. split; [apply length_seq|]. split.
  - apply Forall_forall. intros i Hi. apply elem_of_seq in Hi. lia.
  - apply NoDup_seq.
Qed.

Definition utm32 : CRS := CRS_from_epsg 25832.
Definition wgs84 : CRS := CRS_from_epsg 4326.

Definition planted : DateTime :=
  {| year := 2021; month := 3; day := 4; hour := 5; minute := 6; second := 7;
     microsecond := 0 |}.

(** Three trees in geographic coordinates, with a planting time. *)
Definition three_trees (c : option CRS) : GeoDataFrame :=
  {| crs := c; geometry_name := "geometry";
     columns := [("id", Int64Col [1; 2; 3]%Z);
                 ("planted", Datetime64Col [Some planted; None; Some planted]);
                 ("note", ObjectCol [VStr "oak"; VDatetime planted; VNone]);
                 ("geometry", GeomCol [GPoint 9.21 49.14; GPoint 9.22 49.15; GPoint 9.23 49.13])] |}.

Definition world_of (files : gmap Path File) (store : list GeoDataFrame) : World :=
  {| fs := files; objs := store; handles := []; stderr := []; stdout := []; shown := [] |}.

Definition data : Path := ["data"].

Definition trees_on_disk (c : option CRS) : World :=
  world_of {[ tree_file data := Shapefile (three_trees c) ]} [].

Lemma load_vector_crs_witness :
  fs (trees_on_disk (Some wgs84)) !! tree_file data = Some (Shapefile (three_trees (Some wgs84)))
  ∧ ∃ r w' g',
      _load_vector same_coords (tree_file data) (trees_on_disk (Some wgs84)) = (Ok r, w')
      ∧ objs w' !! r = Some g'
      ∧ (∀ c, crs (three_trees (Some wgs84)) = Some c → to_epsg c = Some TARGET_EPSG →
           g' = three_trees (Some wgs84))
      ∧ (∀ c, crs (three_trees (Some wgs84)) = Some c → to_epsg c ≠ Some TARGET_EPSG →
           (crs g' ≫= to_epsg) = Some 25832%Z)
      ∧ (crs (three_trees (Some wgs84)) = None →
           g' = three_trees (Some wgs84)
           ∧ last (stderr w')
             = Some ("[warn] missing CRS on layer: " +:+ path_name (tree_file data))).
Proof.
  split; [reflexivity|].
  apply (load_vector_crs same_coords (tree_file data) (three_trees (Some wgs84))
           (trees_on_disk (Some wgs84))).
  reflexivity.
Defined.

(** Two orthophoto tiles on the warning paths: one without a CRS, one in
    EPSG:4326. *)
Definition tile (c : option CRS) : Raster :=
  {| r_crs := c; r_transform := (1, 0, 0, 0, 1, 0)%Q; r_bands := [[[0; 1]%Z]] |}.

Definition tile_a : Path := data </> "dop20rgbi_32_515_5440" </> "a.tif".
Definition tile_b : Path := data </> "dop20rgbi_32_515_5440" </> "b.tif".

Definition tiles_on_disk : World :=
  world_of {[ tile_a := GeoTiff (tile None); tile_b := GeoTiff (tile (Some wgs84)) ]} [].


Lemma layers_loadable_trees_on_disk (c : option CRS) : layers_loadable (trees_on_disk c) data.
Proof. vm_compute. repeat split. Qed.

(** A second world with the same tree file and an unrelated frame already
    in its store. *)
Definition trees_on_disk_again (c : option CRS) : World :=
  world_of {[ tree_file data := Shapefile (three_trees c) ]} [empty_frame].

Lemma layers_loadable_trees_on_disk_again (c : option CRS) :
  layers_loadable (trees_on_disk_again c) data.
Proof. vm_compute. repeat split. Qed.

Lemma tree_sampling_capped_witness :
  ∃ g,
    static_trees same_coords first_rows data 2 (trees_on_disk (Some utm32)) = Some g ∧
    static_trees same_coords first_rows data 2 (trees_on_disk_again (Some utm32)) = Some g ∧
    interactive_trees same_coords first_rows data 2 (trees_on_disk (Some utm32)) = Some g ∧
    interactive_trees same_coords first_rows data 2 (trees_on_disk_again (Some utm32)) = Some g ∧
    ((2 < Z.of_nat (len (working_frame same_coords (three_trees (Some utm32)))))%Z →
       Z.of_nat (len g) = 2%Z ∧
       ∃ idx, NoDup idx
              ∧ Forall (λ i, i < len (working_frame same_coords (three_trees (Some utm32)))) idx
              ∧ g = rows (λ A, pick idx) (working_frame same_coords (three_trees (Some utm32)))) ∧
    ((Z.of_nat (len (working_frame same_coords (three_trees (Some utm32)))) ≤ 2)%Z →
       g = working_frame same_coords (three_trees (Some utm32))).
Proof.
  apply (tree_sampling_capped same_coords first_rows data 2 (three_trees (Some utm32))
           (trees_on_disk (Some utm32)) (trees_on_disk_again (Some utm32))).
  - exact first_rows_draws.
  - lia.
  - reflexivity.
  - reflexivity.
  - apply layers_loadable_trees_on_disk.
  - apply layers_loadable_trees_on_disk_again.
Defined.

Lemma zero_cap_disables_sampling_witness :
  static_trees same_coords first_rows data 0 (trees_on_disk (Some wgs84))
  = Some (working_frame same_coords (three_trees (Some wgs84))) ∧
  interactive_trees same_coords first_rows data 0 (trees_on_disk (Some wgs84))
  = Some (working_frame same_coords (three_trees (Some wgs84))).
Proof.
  apply (zero_cap_disables_sampling same_coords first_rows data (three_trees (Some wgs84))
           (trees_on_disk (Some wgs84))).
  - reflexivity.
  - apply layers_loadable_trees_on_disk.
Defined.

(** A store that holds the three trees alone. *)
Definition trees_in_store (c : option CRS) : World :=
  world_of ∅ [three_trees c].

Lemma sanitize_leaves_input_witness :
  ∃ out w',
    _sanitize_attributes day_counts 0 (Some ["planted"; "note"]) (trees_in_store (Some wgs84))
    = (out, w') ∧
    objs w' !! 0 = Some (three_trees (Some wgs84)) ∧
    objs (trees_in_store (Some wgs84)) `prefix_of` objs w' ∧
    (∀ r, out = Ok r →
       r ≠ 0 ∧ length (objs (trees_in_store (Some wgs84))) ≤ r < length (objs w')) ∧
    (Some ["planted"; "note"] = None
     ∨ is_Some (getitem (three_trees (Some wgs84)) (geometry_name (three_trees (Some wgs84))))
     → ∃ r, out = Ok r).
Proof.
  apply (sanitize_leaves_input day_counts 0 (Some ["planted"; "note"])
           (three_trees (Some wgs84)) (trees_in_store (Some wgs84))).
  reflexivity.
Defined.

Lemma three_trees_labels (c : option CRS) : NoDup (columns (three_trees c)).*1.
Proof.
  apply (bool_decide_unpack (NoDup (columns (three_trees c)).*1)). vm_compute. exact I.
Qed.


(** The five layers in the store, in the order trees, parcels, buildings,
    streets, greens. *)
Definition five_layers (ft fp fb fs fg : GeoDataFrame) : World :=
  world_of ∅ [ft; fp; fb; fs; fg].

Lemma map_center_is_reference_midpoint_witness :
  (∀ c, crs (three_trees (Some utm32)) = Some c →
     (crs (wgs84_frame same_coords (three_trees (Some utm32))) ≫= to_epsg) = Some 4326%Z ∧
     ∃ w', map_center same_coords 0 1 2 3 4
             (five_layers empty_frame (three_trees (Some utm32)) empty_frame empty_frame
                          empty_frame)
           = (Ok (midpoint (total_bounds (wgs84_frame same_coords (three_trees (Some utm32))))),
              w')) ∧
  (crs (three_trees (Some utm32)) = None →
     map_center same_coords 0 1 2 3 4
       (five_layers empty_frame (three_trees (Some utm32)) empty_frame empty_frame empty_frame)
     = (Raise (ValueError "Cannot convert to WGS84; missing CRS"),
        five_layers empty_frame (three_trees (Some utm32)) empty_frame empty_frame
                    empty_frame)) ∧
  (∀ r x w0, objs w0 !! r = Some x → crs x = None →
     _to_wgs84 same_coords r w0
     = (Raise (ValueError "Cannot convert to WGS84; missing CRS"), w0)).
Proof.
  apply (map_center_is_reference_midpoint same_coords 0 1 2 3 4
           empty_frame (three_trees (Some utm32)) empty_frame empty_frame empty_frame
           [empty_frame] [empty_frame; empty_frame; empty_frame]).
  - repeat constructor.
  - reflexivity.
  - repeat constructor.
  - reflexivity.
Defined.


(** ** Where the code departs from the specification *)



(** ** Further concrete runs *)

Lemma load_vector_reports_witness :
  ∃ r w',
    _load_vector same_coords (tree_file data) (trees_on_disk None) = (Ok r, w') ∧
    stderr w' = stderr (trees_on_disk None)
                ++ load_warnings (tree_file data) (three_trees None) ∧
    fs w' = fs (trees_on_disk None) ∧ stdout w' = stdout (trees_on_disk None) ∧
    handles w' = handles (trees_on_disk None) ∧
    objs (trees_on_disk None) `prefix_of` objs w'.
Proof.
  apply (load_vector_reports same_coords (tree_file data) (three_trees None)
           (trees_on_disk None)).
  reflexivity.
Defined.


Lemma to_wgs84_reprojects_witness :
  ∃ r w' g',
    _to_wgs84 same_coords 0 (trees_in_store (Some utm32)) = (Ok r, w') ∧
    objs w' !! r = Some g' ∧ objs w' !! 0 = Some (three_trees (Some utm32)) ∧
    (crs g' ≫= to_epsg) = Some 4326%Z ∧
    (to_epsg utm32 = Some 4326%Z → r = 0 ∧ w' = trees_in_store (Some utm32)) ∧
    (to_epsg utm32 ≠ Some 4326%Z →
       r ≠ 0 ∧
       geometry g' = map (map_coords (same_coords utm32 4326))
                       [GPoint 9.21 49.14; GPoint 9.22 49.15; GPoint 9.23 49.13] ∧
       len g' = len (three_trees (Some utm32)) ∧
       (columns g').*1 = (columns (three_trees (Some utm32))).*1 ∧
       ∀ col, col ≠ geometry_name (three_trees (Some utm32)) →
              getitem g' col = getitem (three_trees (Some utm32)) col).
Proof.
  apply (to_wgs84_reprojects same_coords 0 (three_trees (Some utm32)) utm32
           [GPoint 9.21 49.14; GPoint 9.22 49.15; GPoint 9.23 49.13]
           (trees_in_store (Some utm32))); reflexivity.
Defined.



Lemma mosaic_reports_crs_witness :
  ∃ w',
    _orthophoto_mosaic first_raster [tile_a; tile_b] tiles_on_disk
    = (Ok (Some ([[[0; 1]%Z]], (1, 0, 0, 0, 1, 0)%Q)), w') ∧
    stderr w' = stderr tiles_on_disk
                ++ concat (zip_with tile_warnings [tile_a; tile_b]
                             [tile None; tile (Some wgs84)]) ∧
    (Forall (λ r, (r_crs r ≫= to_epsg) = Some TARGET_EPSG) [tile None; tile (Some wgs84)] →
       stderr w' = stderr tiles_on_disk) ∧
    fs w' = fs tiles_on_disk ∧ objs w' = objs tiles_on_disk.
Proof.
  apply (mosaic_reports_crs first_raster [tile_a; tile_b] [tile None; tile (Some wgs84)]).
  - discriminate.
  - repeat constructor.
  - reflexivity.
Defined.

Lemma mosaic_open_failure_leaks_witness :
  ∃ w',
    _orthophoto_mosaic first_raster ([tile_a] ++ tree_file data :: [tile_b]) tiles_on_disk
    = (Raise (RasterioIOError (path_str (tree_file data))), w') ∧
    handles w' = handles tiles_on_disk ++ zip_with open_dataset [tile_a] [tile None] ∧
    Forall (λ d, ds_closed d = false) (drop (length (handles tiles_on_disk)) (handles w')).
Proof.
  apply (mosaic_open_failure_leaks first_raster [tile_a] [tile None] (tree_file data) [tile_b]
           tiles_on_disk).
  - repeat constructor.
  - intros r H. vm_compute in H. discriminate.
Defined.

(** A merge that refuses its input. *)
Definition no_merge : list Raster → Result (Array * Affine) :=
  λ _, Raise (MergeError "Input shapes do not overlap raster.").

Lemma mosaic_merge_failure_leaks_witness :
  ∃ w',
    _orthophoto_mosaic no_merge [tile_a; tile_b] tiles_on_disk
    = (Raise (MergeError "Input shapes do not overlap raster."), w') ∧
    handles w' = handles tiles_on_disk
                 ++ zip_with open_dataset [tile_a; tile_b] [tile None; tile (Some wgs84)].
Proof.
  apply (mosaic_merge_failure_leaks no_merge [tile_a; tile_b] [tile None; tile (Some wgs84)]).
  - discriminate.
  - repeat constructor.
  - reflexivity.
Defined.

Lemma plot_layers_head_truncates_witness :
  ∃ r w' g',
    plot_layers_head same_coords (tree_file data) [("color", SStr "#0055aa")] []
      (trees_on_disk (Some utm32))
    = (Ok ([] ++ [(r, [("color", SStr "#0055aa")])]), w') ∧
    objs w' !! r = Some g' ∧
    g' = iloc_head 5000 (working_frame same_coords (three_trees (Some utm32))) ∧
    len g' = 5000 `min` len (working_frame same_coords (three_trees (Some utm32))) ∧
    crs g' = crs (working_frame same_coords (three_trees (Some utm32))) ∧
    (columns g').*1 = (columns (working_frame same_coords (three_trees (Some utm32)))).*1 ∧
    fs w' = fs (trees_on_disk (Some utm32)).
Proof.
  apply (plot_layers_head_truncates same_coords (tree_file data) (three_trees (Some utm32))
           [("color", SStr "#0055aa")] [] (trees_on_disk (Some utm32))).
  reflexivity.
Defined.

Lemma negative_cap_raises_witness :
  (is_Some (fs (trees_on_disk (Some utm32)) !! tree_file data) →
   ∃ w', plot_layers same_coords first_rows first_raster data (-1) false None
           (trees_on_disk (Some utm32))
         = (Raise (ValueError "A negative number of rows requested. Please provide `n` >= 0."),
            w')
         ∧ fs w' = fs (trees_on_disk (Some utm32))
         ∧ shown w' = shown (trees_on_disk (Some utm32))) ∧
  (∃ w', export_folium_map same_coords first_rows day_counts data (-1) None ["map.html"]
           (trees_on_disk (Some utm32))
         = (Raise (ValueError "A negative number of rows requested. Please provide `n` >= 0."),
            w')
         ∧ fs w' = fs (trees_on_disk (Some utm32))).
Proof.
  apply (negative_cap_raises same_coords first_rows first_raster day_counts data (-1) false
           None None ["map.html"] (trees_on_disk (Some utm32))).
  - lia.
  - apply layers_loadable_trees_on_disk.
Defined.

Lemma sanitize_keeps_listed_columns_witness :
  ∃ r w' g',
    _sanitize_attributes day_counts 0 (Some ["note"; "height"; "geometry"; "id"])
      (trees_in_store (Some wgs84))
    = (Ok r, w') ∧ objs w' !! r = Some g' ∧
    crs g' = crs (three_trees (Some wgs84)) ∧
    (columns g').*1 =
      geometry_name (three_trees (Some wgs84))
      :: filter (λ c, c ∈ (columns (three_trees (Some wgs84))).*1
                      ∧ c ≠ geometry_name (three_trees (Some wgs84)))
           ["note"; "height"; "geometry"; "id"].
Proof.
  apply (sanitize_keeps_listed_columns day_counts 0
           (Some ["note"; "height"; "geometry"; "id"])
           (three_trees (Some wgs84)) (trees_in_store (Some wgs84))).
  - reflexivity.
  - eexists. reflexivity.
Defined.

(** A map with nothing on it yet. *)
Definition blank_map : FoliumMap :=
  {| location := (49.14, 9.22)%Q; zoom_start := 14; tiles := Some "OpenStreetMap";
     control_scale := true; children := [] |}.

Lemma add_geojson_markers_witness :
  let point_style := ("radius", SNum 2) :: [("color", SStr "darkgreen")] in
  (Forall (λ cell, is_Some (marker point_style cell))
     [GPoint 9.21 49.14; GPoint 9.22 49.15; GPoint 9.23 49.13] →
     ∃ m' w',
       add_geojson same_coords day_counts blank_map 0 "Trees" None (Some point_style)
         (trees_in_store (Some utm32))
       = (Ok m', w') ∧
       children m' = children blank_map
                     ++ omap (marker point_style)
                          (wgs84_cells same_coords utm32
                             [GPoint 9.21 49.14; GPoint 9.22 49.15; GPoint 9.23 49.13]) ∧
       length (children m')
       = length (children blank_map)
         + length [GPoint 9.21 49.14; GPoint 9.22 49.15; GPoint 9.23 49.13] ∧
       location m' = location blank_map ∧ tiles m' = tiles blank_map) ∧
  (¬ Forall (λ cell, is_Some (marker point_style cell))
       [GPoint 9.21 49.14; GPoint 9.22 49.15; GPoint 9.23 49.13] →
     ∃ msg w',
       add_geojson same_coords day_counts blank_map 0 "Trees" None (Some point_style)
         (trees_in_store (Some utm32))
       = (Raise (AttributeError msg), w')).
Proof.
  apply (add_geojson_markers same_coords day_counts blank_map 0 "Trees" None
           ("radius", SNum 2) [("color", SStr "darkgreen")]
           (three_trees (Some utm32)) utm32
           [GPoint 9.21 49.14; GPoint 9.22 49.15; GPoint 9.23 49.13]
           (trees_in_store (Some utm32))); reflexivity.
Defined.


(** A rendering of a set of CRS values in the order of first sight. *)
Definition listed : list (option CRS) → string :=
  λ s, "{" +:+ String.concat ", " (map crs_str s) +:+ "}".

Lemma tile_paths_tiles_on_disk : tile_paths (fs tiles_on_disk) data = [tile_a; tile_b].
Proof. vm_compute. reflexivity. Qed.

Lemma layers_loadable_tiles_on_disk : layers_loadable tiles_on_disk data.
Proof. vm_compute. repeat split. Qed.

Lemma summarize_crs_reports_witness :
  ∃ w',
    summarize_crs listed data tiles_on_disk = (Ok (), w') ∧
    stdout w' =
      stdout tiles_on_disk ++ map (layer_report (fs tiles_on_disk)) (layer_files data)
      ++ ["orthophoto tiles: " +:+ pretty (length (tile_paths (fs tiles_on_disk) data))
          +:+ " found; sample CRS="
          +:+ match distinct_crs [tile None; tile (Some wgs84)] with
              | [] => "n/a"
              | _ => listed (distinct_crs [tile None; tile (Some wgs84)])
              end] ∧
    (tile_paths (fs tiles_on_disk) data = [] →
       distinct_crs [tile None; tile (Some wgs84)] = []) ∧
    length (distinct_crs [tile None; tile (Some wgs84)]) ≤ 5.
Proof.
  apply (summarize_crs_reports listed data [tile None; tile (Some wgs84)] tiles_on_disk).
  - apply layers_loadable_tiles_on_disk.
  - rewrite tile_paths_tiles_on_disk. repeat constructor.
Defined.

Lemma sanitize_twice_is_once_witness :
  ∃ r1 w1 r2 w2 g',
    _sanitize_attributes day_counts 0 None (trees_in_store (Some wgs84)) = (Ok r1, w1) ∧
    _sanitize_attributes day_counts r1 None w1 = (Ok r2, w2) ∧
    r1 ≠ r2 ∧ objs w2 !! r1 = Some g' ∧ objs w2 !! r2 = Some g'.
Proof.
  apply (sanitize_twice_is_once day_counts 0 (three_trees (Some wgs84))
           (trees_in_store (Some wgs84))).
  - reflexivity.
  - apply three_trees_labels.
Defined.
